(** * pycodex: the backend execution core, embedded and verified

    A shallow embedding of [pycodex/utils.py], [pycodex/codex.py],
    [pycodex/gemini.py], [pycodex/cli_wrapper.py], [pycodex/exceptions.py]
    and the facade of [pycodex/__init__.py].

    Python [str] values are modelled by [string]; a character is a code
    point below 256 (the Latin-1 fragment of Unicode), so [isspace],
    [lower] and [repr] are the restrictions of Python's to that range.
    Everything the program obtains from its surroundings (environment
    variables, the parsed configuration file, the file system, standard
    input, what a child process does) is a field of the [world] record,
    and the observable effects are appended to its [trace].  A computation
    returns, raises, or never returns ([Hang]: waiting, without a timeout,
    for a child that does not exit or for a pipe that stays open).

    A child process is described by the time it takes to exit, the time
    its output pipes take to be closed by every process that holds them,
    what [communicate()] then answers or raises, and what happens instead
    when the child is killed after a timeout.

    Left out of the model: the parsing of the configuration file
    ([get_config] answers the parsed dict); floats and date-times among
    the configuration values; the random part of a temporary file's name,
    played by a counter; a child that reads part of a line of the
    standard input it inherits. *)

From stdpp Require Import base strings list gmap pretty.
From Stdlib Require Import ZArith PArith Ascii.

Local Open Scope Z_scope.

(** ** Python string built-ins *)

Module PyStr.

(** [str.isspace] on one character: TAB..CR, FS..US, SPACE, NEL, NBSP. *)
Definition isspace (c : ascii) : bool :=
  let n := nat_of_ascii c in
  ((9 <=? n) && (n <=? 13) || (28 <=? n) && (n <=? 32)
   || (n =? 133) || (n =? 160))%nat.

(** [str.lower] on one character: A..Z and the Latin-1 capitals
    U+00C0..U+00DE, the multiplication sign U+00D7 left alone. *)
Definition lower_char (c : ascii) : ascii :=
  let n := nat_of_ascii c in
  if ((65 <=? n) && (n <=? 90)
      || (192 <=? n) && (n <=? 222) && negb (n =? 215))%nat
  then ascii_of_nat (n + 32) else c.

Fixpoint lower (s : string) : string :=
  match s with
  | EmptyString => EmptyString
  | String c s' => String (lower_char c) (lower s')
  end.

Fixpoint lstrip (s : string) : string :=
  match s with
  | EmptyString => EmptyString
  | String c s' => if isspace c then lstrip s' else s
  end.

Fixpoint rstrip (s : string) : string :=
  match s with
  | EmptyString => EmptyString
  | String c s' =>
      match rstrip s' with
      | EmptyString => if isspace c then EmptyString else String c EmptyString
      | r => String c r
      end
  end.

(** [s.strip()] *)
Definition strip (s : string) : string := rstrip (lstrip s).

(** [s.startswith(p)] *)
Definition startswith (s p : string) : bool := String.prefix p s.

(** [s.endswith(p)] for a one-character [p] *)
Fixpoint endswith_char (s : string) (c : ascii) : bool :=
  match s with
  | EmptyString => false
  | String a EmptyString => bool_decide (a = c)
  | String _ s' => endswith_char s' c
  end.

(** [sub in s] *)
Fixpoint contains (sub s : string) : bool :=
  String.prefix sub s ||
  match s with
  | EmptyString => false
  | String _ s' => contains sub s'
  end.

(** Python truth value of a string. *)
Definition truthy (s : string) : bool :=
  match s with EmptyString => false | _ => true end.

(** [a or b] on strings. *)
Definition or_ (a b : string) : string := if truthy a then a else b.

(** [s.split(sep)] and [s.split(sep, maxsplit)] for a non-empty [sep]
    (every separator in the program is a non-empty literal).  The scan
    goes left to right; [cur] is the segment being collected, [skip] the
    number of characters of a matched separator still to be passed over,
    [budget] the number of splits still allowed ([None]: no limit). *)
Fixpoint split_go (sep : string) (budget : option nat) (skip : nat)
    (cur s : string) : list string :=
  match s with
  | EmptyString => [cur]
  | String c s' =>
      match skip with
      | S k => split_go sep budget k cur s'
      | O =>
          match budget with
          | Some O => [cur +:+ s]
          | _ =>
              if String.prefix sep s
              then cur :: split_go sep (pred <$> budget)
                            (String.length sep - 1) EmptyString s'
              else split_go sep budget 0 (cur +:+ String c EmptyString) s'
          end
      end
  end.

Definition split (sep s : string) : list string :=
  split_go sep None 0 EmptyString s.

Definition split_max (sep : string) (maxsplit : nat) (s : string)
    : list string :=
  split_go sep (Some maxsplit) 0 EmptyString s.

(** [sep.join(l)] *)
Definition join (sep : string) (l : list string) : string :=
  String.concat sep l.

Definition newline : string := String (ascii_of_nat 10) EmptyString.

End PyStr.


(** ** Exceptions ([pycodex/exceptions.py] and the built-in ones raised) *)

Inductive exn_class : Set :=
  | CodexError | BackendNotFoundError | ExecutionError
  | ValueError | TypeError | AttributeError | IndexError | EOFError
  | OSError | FileNotFoundError | FileExistsError | UnicodeDecodeError.

Global Instance exn_class_eq_dec : EqDecision exn_class.
Proof. solve_decision. Defined.

Definition class_name (c : exn_class) : string :=
  match c with
  | CodexError => "CodexError"
  | BackendNotFoundError => "BackendNotFoundError"
  | ExecutionError => "ExecutionError"
  | ValueError => "ValueError"
  | TypeError => "TypeError"
  | AttributeError => "AttributeError"
  | IndexError => "IndexError"
  | EOFError => "EOFError"
  | OSError => "OSError"
  | FileNotFoundError => "FileNotFoundError"
  | FileExistsError => "FileExistsError"
  | UnicodeDecodeError => "UnicodeDecodeError"
  end.

(** The direct base class; [None] stands for [Exception]. *)
Definition base_class (c : exn_class) : option exn_class :=
  match c with
  | BackendNotFoundError | ExecutionError => Some CodexError
  | FileNotFoundError | FileExistsError => Some OSError
  | UnicodeDecodeError => Some ValueError
  | _ => None
  end.

(** [issubclass c target]; the hierarchy is two levels deep. *)
Definition issubclass (c target : exn_class) : bool :=
  bool_decide (c = target) || bool_decide (base_class c = Some target).

Record exn : Set := Exn { exn_cls : exn_class; exn_msg : string }.

(** ** Python values that reach the program from the configuration file

    [tomllib] yields dicts, lists, strings, integers and booleans (floats
    and date-times are left out); [None] is what [dict.get] and
    [os.getenv] answer for a missing key. *)

#[warnings="-register-all"]
Inductive pyval :=
  | VNone
  | VBool (b : bool)
  | VInt (n : Z)
  | VStr (s : string)
  | VList (l : list pyval)
  | VDict (d : list (string * pyval)).

Module Py.

(** [bool(v)] *)
Definition truthy (v : pyval) : bool :=
  match v with
  | VNone => false
  | VBool b => b
  | VInt n => negb (n =? 0)
  | VStr s => PyStr.truthy s
  | VList l => match l with [] => false | _ => true end
  | VDict d => match d with [] => false | _ => true end
  end.

(** [a or b] *)
Definition or_ (a b : pyval) : pyval := if truthy a then a else b.

(** [v == s] for a string literal [s] *)
Definition eq_str (v : pyval) (s : string) : bool :=
  match v with VStr t => bool_decide (t = s) | _ => false end.

Definition of_opt (o : option string) : pyval :=
  match o with Some s => VStr s | None => VNone end.

Definition hex_digit (n : nat) : ascii :=
  ascii_of_nat (if (n <? 10)%nat then 48 + n else 87 + n).

(** One character of [repr(s)] with [q] the quote chosen.  A character
    is escaped when it is the quote, the backslash, or not printable. *)
Definition repr_char (q c : ascii) : string :=
  let n := nat_of_ascii c in
  if bool_decide (c = q) || (n =? 92)%nat
  then String (ascii_of_nat 92) (String c EmptyString)
  else if (n =? 9)%nat then String (ascii_of_nat 92) "t"
  else if (n =? 10)%nat then String (ascii_of_nat 92) "n"
  else if (n =? 13)%nat then String (ascii_of_nat 92) "r"
  else if ((n <? 32) || (n =? 127) || (128 <=? n) && (n <=? 160)
           || (n =? 173))%nat
  then String (ascii_of_nat 92)
         (String "x" (String (hex_digit (n / 16))
                        (String (hex_digit (n mod 16)) EmptyString)))
  else String c EmptyString.

Fixpoint repr_chars (q : ascii) (s : string) : string :=
  match s with
  | EmptyString => EmptyString
  | String c s' => repr_char q c +:+ repr_chars q s'
  end.

(** [repr(s)] of a string: single quotes, unless the string holds a
    single quote and no double quote. *)
Definition repr_str (s : string) : string :=
  let q := if PyStr.contains "'" s && negb (PyStr.contains (String (ascii_of_nat 34) EmptyString) s)
           then ascii_of_nat 34 else ascii_of_nat 39 in
  String q (repr_chars q s) +:+ String q EmptyString.

Fixpoint repr (v : pyval) : string :=
  match v with
  | VNone => "None"
  | VBool true => "True"
  | VBool false => "False"
  | VInt n => pretty n
  | VStr s => repr_str s
  | VList l => "[" +:+ PyStr.join ", " (map repr l) +:+ "]"
  | VDict d =>
      "{" +:+ PyStr.join ", "
                (map (fun kv => match kv with
                                | (k, x) => repr_str k +:+ ": " +:+ repr x
                                end) d) +:+ "}"
  end.

(** [str(v)], also what an f-string field [{v}] renders. *)
Definition str (v : pyval) : string :=
  match v with VStr s => s | _ => repr v end.

(** [type(v).__name__] *)
Definition type_name (v : pyval) : string :=
  match v with
  | VNone => "NoneType"
  | VBool _ => "bool"
  | VInt _ => "int"
  | VStr _ => "str"
  | VList _ => "list"
  | VDict _ => "dict"
  end.

(** [d[k]] lookup in a dict literal: the first binding of [k]. *)
Fixpoint assoc (k : string) (d : list (string * pyval)) : option pyval :=
  match d with
  | [] => None
  | (k', x) :: d' => if bool_decide (k' = k) then Some x else assoc k d'
  end.

End Py.


(** ** The surroundings of the program *)

(** A file is readable text, or reading it raises (permission, decoding). *)
Inductive file_node : Set :=
  | Text (s : string)
  | Unreadable (e : exn).

(** What [communicate()] answers once both output pipes are at their end:
    the two streams decoded as text, line ends translated; or the
    exception it raises instead, a [UnicodeDecodeError] when the bytes
    written by the child are not text in the encoding of the locale. *)
Inductive streams : Set :=
  | Captured (out err : string)
  | Failed (e : exn).

(** How communication with a child ends: the return code of the child,
    what its pipes carried, the files it has written or removed by then
    ([Some] node: written; [None]: removed), and the lines it has read
    from the standard input of the program, when it was given that one
    rather than a pipe: [true] at the place of each line read, among the
    lines left for the program.  (On a terminal a child reads the next
    lines; when the program has read ahead in a file or a pipe, later
    ones.) *)
Record ending : Set := Ending {
  returncode : Z;
  captured : streams;
  writes : list (string * option file_node);
  lines_read : list bool
}.

(** A child process.  Time is counted in the units of the timeout,
    rounded up, so that the first moment is 1.  [exit_after]: when the
    child exits by itself ([None]: never).  [eof_after]: when both output
    pipes reach their end, that is when every process that holds them,
    the child or a descendant that inherited them, has closed them
    ([None]: never).  [normal]: how communication ends when it is left
    to run.  [killed t]: how it ends when the child is killed after the
    timeout [t]; [None] when some other process then keeps a pipe open for
    ever. *)
Record process : Set := Process {
  exit_after : option positive;
  eof_after : option positive;
  normal : ending;
  killed : Z -> option ending
}.

(** What happens when a command line is started with a standard input:
    [NoSpawn e] when [Popen] itself raises [e], else the child. *)
Inductive behaviour : Set :=
  | NoSpawn (e : exn)
  | Runs (p : process).

(** What the program does that shows outside: a child is started,
    [proc.kill()] is called, a prompt is written, a file is created, a
    file is removed. *)
Inductive event : Set :=
  | EvSpawn (argv : list string) (input_text : option string)
  | EvKill
  | EvPrompt (text : string)
  | EvCreate (path : string)
  | EvUnlink (path : string).

Global Instance event_eq_dec : EqDecision event.
Proof. solve_decision. Defined.

Record world := World {
  environ : gmap string string;          (* os.environ *)
  config : list (string * pyval);        (* what get_config() returns *)
  executable : string -> bool;           (* isfile(p) and access(p, X_OK) *)
  usable_dir : string -> bool;           (* a file can be made in the dir *)
  cwd : string;                          (* os.getcwd() *)
  fs : gmap string file_node;            (* files that are read or written *)
  unlink_error : string -> option exn;   (* why a file cannot be removed *)
  stdin : list string;                   (* lines left on standard input *)
  child : list string -> option string -> behaviour;
  tmp_count : nat;                       (* temporary names drawn so far *)
  trace : list event                     (* effects so far, oldest first *)
}.

Definition with_trace (ev : event) (w : world) : world :=
  World (environ w) (config w) (executable w) (usable_dir w) (cwd w) (fs w)
        (unlink_error w) (stdin w) (child w) (tmp_count w) (trace w ++ [ev]).

Definition with_stdin (l : list string) (w : world) : world :=
  World (environ w) (config w) (executable w) (usable_dir w) (cwd w) (fs w)
        (unlink_error w) l (child w) (tmp_count w) (trace w).

Definition with_fs (f : gmap string file_node) (w : world) : world :=
  World (environ w) (config w) (executable w) (usable_dir w) (cwd w) f
        (unlink_error w) (stdin w) (child w) (tmp_count w) (trace w).

Definition with_tmp_count (n : nat) (w : world) : world :=
  World (environ w) (config w) (executable w) (usable_dir w) (cwd w) (fs w)
        (unlink_error w) (stdin w) (child w) n (trace w).

(** ** Computations: a result, an exception, or a call that never returns *)

Inductive res (A : Type) : Type :=
  | Ret (a : A)
  | Raise (e : exn)
  | Hang.
Arguments Ret {A} a.
Arguments Raise {A} e.
Arguments Hang {A}.

Global Instance res_ret : MRet res := fun A a => Ret a.

Global Instance res_bind : MBind res := fun A B f r =>
  match r with
  | Ret a => f a
  | Raise e => Raise e
  | Hang => Hang
  end.

Definition M (A : Type) : Type := world -> res A * world.

Global Instance M_ret : MRet M := fun A a w => (Ret a, w).

Global Instance M_bind : MBind M := fun A B f m w =>
  match m w with
  | (Ret a, w') => f a w'
  | (Raise e, w') => (Raise e, w')
  | (Hang, w') => (Hang, w')
  end.

Definition raise {A} (c : exn_class) (msg : string) : M A :=
  fun w => (Raise (Exn c msg), w).

Definition reraise {A} (e : exn) : M A := fun w => (Raise e, w).

Definition hang {A} : M A := fun w => (Hang, w).

Definition lift {A} (r : res A) : M A := fun w => (r, w).

Definition emit (ev : event) : M unit := fun w => (Ret tt, with_trace ev w).

(** [try: m  except C1 as e: h1 e  except C2 as e: h2 e ...]: the first
    clause whose class the exception is an instance of handles it; the
    class [None] stands for [Exception], the base of every modelled
    class. *)
Fixpoint find_handler {A} (hs : list (option exn_class * (exn -> M A)))
    (e : exn) : option (exn -> M A) :=
  match hs with
  | [] => None
  | (c, h) :: hs' =>
      if match c with
         | None => true
         | Some cls => issubclass (exn_cls e) cls
         end
      then Some h else find_handler hs' e
  end.

Definition try_except {A} (m : M A)
    (hs : list (option exn_class * (exn -> M A))) : M A := fun w =>
  match m w with
  | (Raise e, w') =>
      match find_handler hs e with
      | Some h => h e w'
      | None => (Raise e, w')
      end
  | r => r
  end.

(** [try: m  finally: c], with a clean-up [c] that cannot raise. *)
Definition try_finally {A} (m : M A) (c : M unit) : M A := fun w =>
  match m w with
  | (Hang, w') => (Hang, w')
  | (r, w') => (r, snd (c w'))
  end.

(** [os.getenv(name)] and [os.getenv(name, default)] *)
Definition getenv (name : string) : M (option string) :=
  fun w => (Ret (environ w !! name), w).

Definition getenv_default (name : string) (dflt : pyval) : M pyval :=
  fun w => (Ret (match environ w !! name with
                 | Some s => VStr s
                 | None => dflt
                 end), w).

(** [d.get(k)] on a configuration value: [AttributeError] when the
    receiver is not a dict. *)
Definition dict_get (d : pyval) (k : string) (dflt : pyval) : M pyval :=
  match d with
  | VDict l => mret (default dflt (Py.assoc k l))
  | _ => raise AttributeError
           ("'" +:+ Py.type_name d +:+ "' object has no attribute 'get'")
  end.

Definition getenv_str (name dflt : string) : M string :=
  fun w => (Ret (default dflt (environ w !! name)), w).

(** ** [pycodex/cli_wrapper.py]: the result records *)

Record CodexResult := mkCodexResult {
  code : string;
  text : string;
  log : string
}.

Record CommandResult := mkCommandResult {
  output : string;
  error : string;
  status_code : Z
}.

(** ** [pycodex/utils.py] *)

(** [open(path, 'r', encoding='utf-8').read()] *)
Definition read_text (path : string) : M string := fun w =>
  match fs w !! path with
  | None =>
      (Raise (Exn FileNotFoundError
                ("[Errno 2] No such file or directory: "
                 +:+ Py.repr_str path)), w)
  | Some (Text s) => (Ret s, w)
  | Some (Unreadable e) => (Raise e, w)
  end.

Fixpoint read_files_loop (paths combined log_parts : list string)
    : M (list string * list string) :=
  match paths with
  | [] => mret (combined, log_parts)
  | p :: paths' =>
      '(combined', log_parts') ←
        try_except
          (content ← read_text p;
           mret (combined ++ [PyStr.newline +:+ "===== FILE: " +:+ p
                              +:+ " =====" +:+ PyStr.newline +:+ content
                              +:+ PyStr.newline],
                 log_parts ++ ["Included file: " +:+ p +:+ " ("
                               +:+ pretty (String.length content)
                               +:+ " chars)"]))
          [(Some FileNotFoundError,
            fun _ => mret (combined, log_parts ++ ["File not found: " +:+ p]));
           (None,
            fun e => mret (combined,
                           log_parts ++ ["Error reading " +:+ p +:+ ": "
                                         +:+ exn_msg e]))];
      read_files_loop paths' combined' log_parts'
  end.

Definition read_files (paths : list string) : M (string * string) :=
  '(combined, log_parts) ← read_files_loop paths [] [];
  mret (PyStr.join EmptyString combined, PyStr.join PyStr.newline log_parts).

Definition is_noninteractive : M bool :=
  v ← getenv_str "PYCODEX_NONINTERACTIVE" "0";
  mret (bool_decide (v = "1")).

(** [input(prompt)]: the prompt is shown, then one line is read;
    [EOFError] at the end of standard input. *)
Definition input (prompt : string) : M string := fun w =>
  match stdin w with
  | [] => (Raise (Exn EOFError "EOF when reading a line"),
           with_trace (EvPrompt prompt) w)
  | line :: rest => (Ret line, with_stdin rest (with_trace (EvPrompt prompt) w))
  end.

Definition approve_action (prompt : string) : M bool :=
  ni ← is_noninteractive;
  if ni : bool then mret false
  else
    ans ← try_except
             (line ← input (prompt +:+ " [y/N]: ");
              mret (Some (PyStr.lower (PyStr.strip line))))
             [(Some EOFError, fun _ => mret None)];
    match ans with
    | None => mret false
    | Some a => mret (bool_decide (a = "y") || bool_decide (a = "yes"))
    end.

(** The command line handed to [Popen] must hold strings only; the first
    item that is not one is reported. *)
Fixpoint as_argv (cmd : list pyval) : res (list string) :=
  match cmd with
  | [] => Ret []
  | VStr s :: cmd' =>
      match as_argv cmd' with
      | Ret l => Ret (s :: l)
      | r => r
      end
  | v :: _ =>
      Raise (Exn TypeError
               ("expected str, bytes or os.PathLike object, not "
                +:+ Py.type_name v))
  end.

(** [subprocess.Popen(cmd, stdin=..., stdout=PIPE, stderr=PIPE, text=True)] *)
Definition Popen (argv : list string) (input_text : option string)
    : M behaviour := fun w =>
  match child w argv input_text with
  | NoSpawn e => (Raise e, w)
  | b => (Ret b, with_trace (EvSpawn argv input_text) w)
  end.

Definition apply_writes (ws : list (string * option file_node))
    (f : gmap string file_node) : gmap string file_node :=
  foldl (fun f pw => match pw with
                     | (p, Some n) => <[p:=n]> f
                     | (p, None) => delete p f
                     end) f ws.

(** The lines left once those marked as read are gone. *)
Fixpoint unread (read : list bool) (lines : list string) : list string :=
  match read, lines with
  | true :: read', _ :: lines' => unread read' lines'
  | false :: read', line :: lines' => line :: unread read' lines'
  | _, _ => lines
  end.

(** What the child leaves behind: its file operations show in the file
    system, and the lines it has read are gone from the standard input
    when it inherited that one ([stdin=None]); given a pipe, it reads the
    text sent through it and nothing else. *)
Definition after_child (input_text : option string) (e : ending) (w : world)
    : world :=
  with_stdin (match input_text with
              | None => unread (lines_read e) (stdin w)
              | Some _ => stdin w
              end)
    (with_fs (apply_writes (writes e) (fs w)) w).

(** [proc.communicate()] on a child whose communication ends as [e] does,
    or never ends ([None]): both pipes are read to their end and the child
    is waited for. *)
Definition communicate (input_text : option string) (e : option ending)
    : M (string * string) :=
  match e with
  | None => hang
  | Some e =>
      fun w =>
        (match captured e with
         | Captured out err => Ret (out, err)
         | Failed x => Raise x
         end, after_child input_text e w)
  end.

(** Has a moment not come yet when [t] units have passed? *)
Definition pending (t : Z) (after : option positive) : bool :=
  match after with
  | None => true
  | Some d => t <? Z.pos d
  end.

(** Does [communicate(timeout=...)] raise [TimeoutExpired]?  It does,
    after the timeout [t] given, when a pipe is still open or the child has
    not exited by then; so it always does for a timeout of 0. *)
Definition timed_out (timeout : option Z) (p : process) : option Z :=
  match timeout with
  | None => None
  | Some t =>
      if pending t (eof_after p) || pending t (exit_after p) then Some t
      else None
  end.

(** How communication ends when nothing stops it: both pipes must reach
    their end and the child must exit. *)
Definition undisturbed (p : process) : option ending :=
  match eof_after p, exit_after p with
  | Some _, Some _ => Some (normal p)
  | _, _ => None
  end.

Definition run_subprocess (cmd : list pyval) (input_text : option string)
    (timeout : option Z) : M (Z * string * string) :=
  argv ← lift (as_argv cmd);
  proc ← Popen argv input_text;
  match proc with
  | NoSpawn e => reraise e
  | Runs p =>
      match timed_out timeout p with
      | Some t =>
          (* except subprocess.TimeoutExpired *)
          _ ← emit EvKill;
          '(out, err) ← communicate input_text (killed p t);
          mret (124, PyStr.or_ out EmptyString,
                PyStr.or_ err "Timeout expired")
      | None =>
          '(out, err) ← communicate input_text (undisturbed p);
          mret (returncode (normal p), PyStr.or_ out EmptyString,
                PyStr.or_ err EmptyString)
      end
  end.

Definition exec_shell_command (command : string) (safe : bool)
    (approval_mode : pyval) : M (Z * string * string) :=
  let cmd := [VStr "bash"; VStr "-lc"; VStr command] in
  let _do_exec := run_subprocess cmd None None in
  if negb safe || Py.eq_str approval_mode "full-auto" then _do_exec
  else if Py.eq_str approval_mode "auto-edit" then _do_exec
  else
    (* 'suggest' mode *)
    ni ← is_noninteractive;
    if ni : bool then
      raise ExecutionError
        "Safe execution requires approval in noninteractive mode. Set approval_mode='full-auto' or PYCODEX_NONINTERACTIVE=0."
    else
      ok ← approve_action ("Execute command: " +:+ command);
      if ok : bool then _do_exec
      else mret (125, EmptyString, "Command not approved by user").

Definition posix_join (a b : string) : string :=
  if PyStr.startswith b "/" then b
  else if negb (PyStr.truthy a) || PyStr.endswith_char a "/" then a +:+ b
  else a +:+ "/" +:+ b.

(** [os.path.join(path, cmd)]: [TypeError] unless [cmd] is a string. *)
Definition os_path_join (path : string) (cmd : pyval) : M string :=
  match cmd with
  | VStr c => mret (posix_join path c)
  | _ => raise TypeError
           ("join() argument must be str, bytes, or os.PathLike object, not '"
            +:+ Py.type_name cmd +:+ "'")
  end.

Fixpoint which_loop (dirs : list string) (cmd : pyval) : M (option string) :=
  match dirs with
  | [] => mret None
  | path :: dirs' =>
      candidate ← os_path_join path cmd;
      ok ← (fun w => (Ret (executable w candidate), w)) : M bool;
      if ok : bool then mret (Some candidate) else which_loop dirs' cmd
  end.

Definition which (cmd : pyval) : M (option string) :=
  path ← getenv_str "PATH" EmptyString;
  which_loop (PyStr.split ":" path) cmd.

Definition build_cli_command (base_cmd subcommand : string)
    (model approval_mode : option string) (extra_args : option (list string))
    : list string :=
  let parts := [base_cmd; subcommand] in
  let parts := if PyStr.truthy (default EmptyString model)
               then parts ++ ["--model"; default EmptyString model]
               else parts in
  let parts := if PyStr.truthy (default EmptyString approval_mode)
               then parts ++ ["--approval"; default EmptyString approval_mode]
               else parts in
  match extra_args with
  | Some (a :: l) => parts ++ a :: l
  | _ => parts
  end.

(** [l[i]] *)
Definition index {A} (l : list A) (i : nat) : res A :=
  match l !! i with
  | Some x => Ret x
  | None => Raise (Exn IndexError "list index out of range")
  end.

(** [a, b = l] *)
Definition unpack2 {A} (l : list A) : res (A * A) :=
  match l with
  | [a; b] => Ret (a, b)
  | _ => Raise (Exn ValueError "wrong number of values to unpack")
  end.

Definition fence : string := "```".

Definition parse_code_and_text (output : string) : res (string * string) :=
  '(code, text) ←
    (if PyStr.contains fence output then
       let segments := PyStr.split fence output in
       if (3 <=? length segments)%nat then
         code_block ← index segments 1;
         code ←
           (if PyStr.contains PyStr.newline code_block then
              '(first_line, rest) ←
                 unpack2 (PyStr.split_max PyStr.newline 1 code_block);
              mret (if PyStr.truthy (PyStr.strip first_line)
                       && negb (PyStr.startswith (PyStr.strip first_line) "#")
                    then rest else code_block)
            else mret code_block);
         pre ← index segments 0;
         mret (code,
               PyStr.strip (pre +:+ PyStr.join EmptyString (drop 2 segments)))
       else mret (EmptyString, output)
     else mret (EmptyString, output));
  mret (PyStr.strip code, PyStr.strip text).

(** [get_config()]: the parsed [~/.pycodex/config.toml], [{}] when the
    file is absent or cannot be parsed. *)
Definition get_config : M pyval := fun w => (Ret (VDict (config w)), w).

(** [a or <k>], the right operand evaluated only when [a] is false. *)
Definition or_else (a : pyval) (k : M pyval) : M pyval :=
  if Py.truthy a then mret a else k.

(** ** [pycodex/cli_wrapper.py]: the interface of a backend *)

Class CodexInterface (B : Type) := {
  generate : B -> string -> option (list string) -> M CodexResult;
  explain : B -> string -> M CodexResult;
  edit : B -> string -> string -> M CodexResult;
  exec_command : B -> string -> bool -> M CommandResult
}.

(** ** The temporary file of [tempfile]

    [os.path.normpath(path)]: empty and [.] components are dropped, a
    [..] component takes the one before it away, and two slashes at the
    very start are kept. *)
Definition normpath_step (rooted : bool) (new_comps : list string)
    (comp : string) : list string :=
  if bool_decide (comp = EmptyString) || bool_decide (comp = ".")
  then new_comps
  else if negb (bool_decide (comp = ".."))
          || negb rooted && bool_decide (new_comps = [])
          || bool_decide (last new_comps = Some "..")
  then new_comps ++ [comp]
  else removelast new_comps.

Definition normpath (path : string) : string :=
  if negb (PyStr.truthy path) then "."
  else
    let initial_slashes :=
      if PyStr.startswith path "/" then
        if PyStr.startswith path "//" && negb (PyStr.startswith path "///")
        then "//" else "/"
      else EmptyString in
    let comps := foldl (normpath_step (PyStr.truthy initial_slashes)) []
                   (PyStr.split "/" path) in
    PyStr.or_ (initial_slashes +:+ PyStr.join "/" comps) ".".

(** [os.path.abspath(path)] in the working directory [here] *)
Definition abspath (here path : string) : string :=
  normpath (if PyStr.startswith path "/" then path else posix_join here path).

(** [tempfile._candidate_tempdir_list()] *)
Definition candidate_tempdir_list (w : world) : list string :=
  omap (fun envname =>
          match environ w !! envname with
          | Some dirname => if PyStr.truthy dirname then Some dirname else None
          | None => None
          end) ["TMPDIR"; "TEMP"; "TMP"]
  ++ ["/tmp"; "/var/tmp"; "/usr/tmp"] ++ [cwd w].

(** [tempfile.gettempdir()]: the first candidate, made absolute, in which
    a file can be created, written and removed; [FileNotFoundError] when
    there is none.  (The answer is kept for the life of the process; the
    environment and the directories do not change here, so computing it
    again gives the same.) *)
Definition gettempdir : M string := fun w =>
  let dirlist := candidate_tempdir_list w in
  match find (usable_dir w) (abspath (cwd w) <$> dirlist) with
  | Some dir => (Ret dir, w)
  | None =>
      (Raise (Exn FileNotFoundError
                ("[Errno 2] No usable temporary directory found in "
                 +:+ Py.repr (VList (VStr <$> dirlist)))), w)
  end.

(** [tempfile.TMP_MAX]: how many names are tried *)
Definition TMP_MAX : positive := 238328.

(** One name is drawn and tried: [inr] the file and the next draw when no
    file bears the name, [inl] the next draw when one does
    ([FileExistsError]: try again). *)
Definition try_name (dir pre suf : string) (f : gmap string file_node)
    (n : nat) : nat + string * nat :=
  let file := posix_join dir (pre +:+ pretty n +:+ suf) in
  match f !! file with
  | None => inr (file, S n)
  | Some _ => inl (S n)
  end.

(** [for seq in range(tries)]: names are tried until one is free. *)
Fixpoint try_names (tries : positive) (dir pre suf : string)
    (f : gmap string file_node) (n : nat) : nat + string * nat :=
  match tries with
  | xH => try_name dir pre suf f n
  | xO tries' =>
      match try_names tries' dir pre suf f n with
      | inl n' => try_names tries' dir pre suf f n'
      | found => found
      end
  | xI tries' =>
      match try_name dir pre suf f n with
      | inl n' =>
          match try_names tries' dir pre suf f n' with
          | inl n'' => try_names tries' dir pre suf f n''
          | found => found
          end
      | found => found
      end
  end.

(** [tempfile._mkstemp_inner(dir, pre, suf, ...)]: an empty file is
    created under the first name tried that no file bears. *)
Definition mkstemp_inner (dir pre suf : string) : M string := fun w =>
  match try_names TMP_MAX dir pre suf (fs w) (tmp_count w) with
  | inr (file, n) =>
      (Ret file,
       with_trace (EvCreate file)
         (with_fs (<[file := Text EmptyString]> (fs w))
            (with_tmp_count n w)))
  | inl _ =>
      (Raise (Exn FileExistsError
                "[Errno 17] No usable temporary file name found"), w)
  end.

(** [tempfile.NamedTemporaryFile(prefix=..., suffix=..., delete=False)]
    followed by [close()]: an empty file in the directory of
    [gettempdir]. *)
Definition NamedTemporaryFile (prefix suffix : string) : M string :=
  dir ← gettempdir;
  mkstemp_inner dir prefix suffix.

Definition path_exists (path : string) : M bool :=
  fun w => (Ret (bool_decide (is_Some (fs w !! path))), w).

(** [os.unlink(path)]: the file must be there, and its directory must let
    it be removed. *)
Definition unlink (path : string) : M unit := fun w =>
  match fs w !! path with
  | None =>
      (Raise (Exn FileNotFoundError
                ("[Errno 2] No such file or directory: "
                 +:+ Py.repr_str path)), w)
  | Some _ =>
      match unlink_error w path with
      | Some e => (Raise e, w)
      | None =>
          (Ret tt, with_fs (delete path (fs w)) (with_trace (EvUnlink path) w))
      end
  end.

(** [try: os.unlink(path)  except Exception: pass] *)
Definition unlink_quietly (path : string) : M unit :=
  try_except (unlink path) [(None, fun _ => mret tt)].

(** The items of [' '.join(cmd)]: [TypeError] at the first item, counted
    from [i], that is not a string. *)
Fixpoint join_items (i : nat) (cmd : list pyval) : res (list string) :=
  match cmd with
  | [] => Ret []
  | VStr s :: cmd' =>
      match join_items (S i) cmd' with
      | Ret l => Ret (s :: l)
      | r => r
      end
  | v :: _ =>
      Raise (Exn TypeError
               ("sequence item " +:+ pretty i +:+ ": expected str instance, "
                +:+ Py.type_name v +:+ " found"))
  end.

(** [' '.join(cmd)] *)
Definition join_cmd (cmd : list pyval) : M string :=
  items ← lift (join_items 0 cmd);
  mret (PyStr.join " " items).

(** [_truthy(val)] of [pycodex/codex.py] *)
Definition _truthy (val : pyval) : bool :=
  match val with
  | VNone => false
  | _ =>
      let t := PyStr.lower (PyStr.strip (Py.str val)) in
      bool_decide (t = "1") || bool_decide (t = "true")
      || bool_decide (t = "yes") || bool_decide (t = "on")
  end.

(** ** [pycodex/codex.py] *)

Module CodexBackend.

Record t := mk {
  model : pyval;
  approval_mode : pyval;
  base_cmd : pyval;
  use_files_arg : bool;
  split_edit : bool;
  _available : bool
}.

Definition __init__ (model : option string) (approval_mode : string)
    : M t :=
  cfg ← get_config;
  backend ← dict_get cfg "backend" VNone;
  codex ← dict_get (Py.or_ backend (VDict [])) "codex" VNone;
  let bc := Py.or_ codex (VDict []) in
  env_model ← getenv "PYCODEX_CODEX_MODEL";
  self_model ←
    or_else (Py.of_opt env_model)
      (or_else (Py.of_opt model)
         (m ← dict_get bc "model" VNone;
          mret (Py.or_ m (VStr "gpt-5-codex"))));
  dflt_mode ←
    or_else (VStr approval_mode)
      (m ← dict_get bc "approval_mode" VNone;
       mret (Py.or_ m (VStr "suggest")));
  self_approval_mode ← getenv_default "PYCODEX_APPROVAL" dflt_mode;
  cli ← dict_get bc "cli" VNone;
  self_base_cmd ← getenv_default "PYCODEX_CODEX_CLI"
                    (Py.or_ cli (VStr "codex"));
  files_arg ← dict_get bc "files_arg" (VBool false);
  self_use_files_arg ← getenv_default "PYCODEX_CODEX_FILES_ARG"
                         (VStr (Py.str files_arg));
  split ← dict_get bc "split_edit" (VBool true);
  self_split_edit ← getenv_default "PYCODEX_CODEX_SPLIT_EDIT"
                      (VStr (Py.str split));
  found ← which self_base_cmd;
  mret (mk self_model self_approval_mode self_base_cmd
          (_truthy self_use_files_arg) (_truthy self_split_edit)
          (bool_decide (is_Some found))).

Definition not_found_message (self : t) : string :=
  "Codex CLI not found: '" +:+ Py.str (base_cmd self)
  +:+ "'. Set PYCODEX_CODEX_CLI or install the CLI.".

Definition _ensure_available (self : t) : M unit :=
  if _available self then mret tt
  else
    found ← which (base_cmd self);
    match found with
    | None => raise BackendNotFoundError (not_found_message self)
    | Some _ => mret tt
    end.

Definition failed_message (status : Z) (out err : string) : string :=
  "Codex CLI failed (" +:+ pretty status +:+ "): "
  +:+ PyStr.or_ (PyStr.strip err) (PyStr.strip out).

Definition _run_exec (self : t) (prompt : string)
    (files : option (list string)) : M CodexResult :=
  _ ← _ensure_available self;
  '(context, file_log) ← read_files (default [] files);
  let full_prompt :=
    if PyStr.truthy context
    then prompt +:+ PyStr.newline +:+ PyStr.newline +:+ "[CONTEXT]"
         +:+ PyStr.newline +:+ context
    else prompt in
  tmp_path ← NamedTemporaryFile "pycodex_last_msg_" ".txt";
  let cmd := [base_cmd self; VStr "exec"] in
  let cmd := if Py.truthy (model self)
             then cmd ++ [VStr "--model"; model self] else cmd in
  let cmd := cmd ++ [VStr "--color"; VStr "never";
                     VStr "--skip-git-repo-check"] in
  env_sandbox ← getenv "PYCODEX_CODEX_SANDBOX";
  sandbox ←
    or_else (Py.of_opt env_sandbox)
      (cfg ← get_config;
       backend ← dict_get cfg "backend" VNone;
       codex ← dict_get (Py.or_ backend (VDict [])) "codex" (VDict []);
       dict_get codex "sandbox" VNone);
  let cmd := if Py.truthy sandbox
             then cmd ++ [VStr "--sandbox"; VStr (Py.str sandbox)]
             else cmd in
  let cmd := cmd ++ [VStr "--output-last-message"; VStr tmp_path] in
  '(status, out, err) ← run_subprocess cmd (Some full_prompt) None;
  last_msg ←
    try_finally
      (present ← path_exists tmp_path;
       if present : bool then read_text tmp_path else mret out)
      (unlink_quietly tmp_path);
  if negb (status =? 0) then
    raise ExecutionError (failed_message status out err)
  else
    '(code, text) ← lift (parse_code_and_text last_msg);
    cmd_line ← join_cmd cmd;
    mret (mkCodexResult code text
            ("cmd=" +:+ cmd_line +:+ PyStr.newline +:+ file_log)).

Definition generate (self : t) (prompt : string)
    (files : option (list string)) : M CodexResult :=
  _run_exec self prompt files.

Definition explain (self : t) (code : string) : M CodexResult :=
  let prompt :=
    "Explain the following code in clear terms. Include purpose, key logic, and potential issues."
    +:+ PyStr.newline +:+ PyStr.newline
    +:+ "```" +:+ PyStr.newline +:+ code +:+ PyStr.newline
    +:+ "```" +:+ PyStr.newline in
  _run_exec self prompt None.

Definition edit (self : t) (code instructions : string) : M CodexResult :=
  let prompt :=
    "Edit the code per the instructions. Respond with the full, updated code in a fenced block."
    +:+ PyStr.newline +:+ PyStr.newline
    +:+ "[INSTRUCTIONS]" +:+ PyStr.newline +:+ instructions
    +:+ PyStr.newline +:+ PyStr.newline +:+ "[CODE]" +:+ PyStr.newline
    +:+ "```" +:+ PyStr.newline +:+ code +:+ PyStr.newline
    +:+ "```" +:+ PyStr.newline in
  _run_exec self prompt None.

Definition exec_command (self : t) (command : string) (safe : bool)
    : M CommandResult :=
  '(status, out, err) ← exec_shell_command command safe (approval_mode self);
  mret (mkCommandResult out err status).

End CodexBackend.

Global Instance CodexBackend_interface : CodexInterface CodexBackend.t := {
  generate := CodexBackend.generate;
  explain := CodexBackend.explain;
  edit := CodexBackend.edit;
  exec_command := CodexBackend.exec_command
}.

(** ** [pycodex/gemini.py] *)

Module GeminiBackend.

Record t := mk {
  model : option string;
  approval_mode : string;
  base_cmd : string;
  _available : bool
}.

Definition __init__ (model : option string) (approval_mode : string)
    : M t :=
  self_base_cmd ← getenv_str "PYCODEX_GEMINI_CLI" "gemini";
  found ← which (VStr self_base_cmd);
  mret (mk model approval_mode self_base_cmd (bool_decide (is_Some found))).

Definition not_found_message (self : t) : string :=
  "Gemini CLI not found: '" +:+ base_cmd self
  +:+ "'. Set PYCODEX_GEMINI_CLI or install the CLI.".

Definition _ensure_available (self : t) : M unit :=
  if _available self then mret tt
  else
    found ← which (VStr (base_cmd self));
    match found with
    | None => raise BackendNotFoundError (not_found_message self)
    | Some _ => mret tt
    end.

Definition failed_message (status : Z) (out err : string) : string :=
  "Gemini CLI failed (" +:+ pretty status +:+ "): "
  +:+ PyStr.or_ (PyStr.strip err) (PyStr.strip out).

Definition _invoke (self : t) (subcommand payload : string)
    (files : option (list string)) : M CodexResult :=
  _ ← _ensure_available self;
  '(context, file_log) ← read_files (default [] files);
  let full_input :=
    if PyStr.truthy context
    then payload +:+ PyStr.newline +:+ PyStr.newline +:+ "[CONTEXT]"
         +:+ PyStr.newline +:+ context
    else payload in
  let cmd := build_cli_command (base_cmd self) subcommand (model self)
               (Some (approval_mode self)) None in
  '(status, out, err) ← run_subprocess (VStr <$> cmd) (Some full_input) None;
  if negb (status =? 0) then
    raise ExecutionError (failed_message status out err)
  else
    '(code, text) ← lift (parse_code_and_text out);
    mret (mkCodexResult code text
            ("cmd=" +:+ PyStr.join " " cmd +:+ PyStr.newline +:+ file_log)).

Definition generate (self : t) (prompt : string)
    (files : option (list string)) : M CodexResult :=
  _invoke self "generate" prompt files.

Definition explain (self : t) (code : string) : M CodexResult :=
  _invoke self "explain" code None.

Definition edit (self : t) (code instructions : string) : M CodexResult :=
  let payload :=
    "[INSTRUCTIONS]" +:+ PyStr.newline +:+ instructions +:+ PyStr.newline
    +:+ PyStr.newline +:+ "[CODE]" +:+ PyStr.newline +:+ code in
  _invoke self "edit" payload None.

Definition exec_command (self : t) (command : string) (safe : bool)
    : M CommandResult :=
  '(status, out, err) ←
     exec_shell_command command safe (VStr (approval_mode self));
  mret (mkCommandResult out err status).

End GeminiBackend.

Global Instance GeminiBackend_interface : CodexInterface GeminiBackend.t := {
  generate := GeminiBackend.generate;
  explain := GeminiBackend.explain;
  edit := GeminiBackend.edit;
  exec_command := GeminiBackend.exec_command
}.

(** ** [pycodex/__init__.py]: the facade *)

Module PyCodex.

Inductive t :=
  | Codex (backend : CodexBackend.t)
  | Gemini (backend : GeminiBackend.t).

Definition __init__ (backend : string) (model : option string)
    (approval_mode : string) : M t :=
  let backend_lc := PyStr.lower backend in
  if bool_decide (backend_lc = "codex") then
    b ← CodexBackend.__init__
           (Some (PyStr.or_ (default EmptyString model) "gpt-5-codex"))
           approval_mode;
    mret (Codex b)
  else if bool_decide (backend_lc = "gemini") then
    b ← GeminiBackend.__init__
           (Some (PyStr.or_ (default EmptyString model) "gemini-1"))
           approval_mode;
    mret (Gemini b)
  else raise ValueError "Unsupported backend".

Definition generate (self : t) (prompt : string)
    (files : option (list string)) : M CodexResult :=
  match self with
  | Codex b => CodexBackend.generate b prompt files
  | Gemini b => GeminiBackend.generate b prompt files
  end.

Definition explain (self : t) (code : string) : M CodexResult :=
  match self with
  | Codex b => CodexBackend.explain b code
  | Gemini b => GeminiBackend.explain b code
  end.

Definition edit (self : t) (code instructions : string) : M CodexResult :=
  match self with
  | Codex b => CodexBackend.edit b code instructions
  | Gemini b => GeminiBackend.edit b code instructions
  end.

Definition exec_command (self : t) (command : string) (safe : bool)
    : M CommandResult :=
  match self with
  | Codex b => CodexBackend.exec_command b command safe
  | Gemini b => GeminiBackend.exec_command b command safe
  end.

End PyCodex.


(** ** [PyCodex.interactive]

    What [print] writes is collected, one item for each call, and
    returned when the session ends.  The loop reads a line at each turn,
    so one turn more than there are lines to read is enough; the loop
    takes that number as fuel, and answers [None] should it run out. *)

Definition banner : string :=
  "PyCodex interactive session. Type 'exit' to quit.".

(** [line[1:]] *)
Definition after_first (line : string) : string :=
  match line with
  | EmptyString => EmptyString
  | String _ rest => rest
  end.

Fixpoint interactive_loop (fuel : nat) (self : PyCodex.t)
    (printed : list string) : M (option (list string)) :=
  match fuel with
  | O => mret None
  | S fuel' =>
      line ← try_except
                (l ← input "pycodex> "; mret (Some (PyStr.strip l)))
                [(Some EOFError, fun _ => mret None)];
      match line with
      | None => mret (Some (printed ++ [EmptyString]))
      | Some line =>
          if negb (PyStr.truthy line) then interactive_loop fuel' self printed
          else if bool_decide (line = "exit") || bool_decide (line = "quit")
          then mret (Some printed)
          else if PyStr.startswith line "!" then
            let cmd := PyStr.strip (after_first line) in
            res ← PyCodex.exec_command self cmd true;
            interactive_loop fuel' self
              (printed ++ [PyStr.or_ (output res) (error res)])
          else
            res ← PyCodex.generate self line None;
            interactive_loop fuel' self
              (printed ++ [PyStr.or_ (code res) (text res)])
      end
  end.

Definition interactive (self : PyCodex.t) : M (option (list string)) :=
  fun w => interactive_loop (S (length (stdin w))) self [banner] w.

(** The inner conditional of [parse_code_and_text]: the code taken from a
    fenced body before the final strip, named to state lemmas about it. *)
Definition code_of_body (body : string) : res string :=
  if PyStr.contains PyStr.newline body then
    '(first_line, rest) ← unpack2 (PyStr.split_max PyStr.newline 1 body);
    mret (if PyStr.truthy (PyStr.strip first_line)
             && negb (PyStr.startswith (PyStr.strip first_line) "#")
          then rest else body)
  else mret body.

(** ** Vocabulary for stating the properties *)

Definition is_prompt (ev : event) : bool :=
  match ev with EvPrompt _ => true | _ => false end.

(** The events of a run that started in [w] and ended in [w']. *)
Definition new_events (w w' : world) : list event :=
  drop (length (trace w)) (trace w').

(** How a run of [run_subprocess] ends once the child is started:
    [status] and [dflt] are the status returned and the error text that
    stands in for an empty one. *)
Definition outcome_of (status : Z) (dflt : string)
    (input_text : option string) (e : option ending) (w : world)
    : res (Z * string * string) * world :=
  match e with
  | None => (Hang, w)
  | Some e =>
      (match captured e with
       | Captured out err => Ret (status, out, PyStr.or_ err dflt)
       | Failed x => Raise x
       end, after_child input_text e w)
  end.

(** The ending reached by the child that [run_subprocess] starts, when it
    starts one and communication ends. *)
Definition ending_reached (w : world) (cmd : list pyval)
    (input_text : option string) (timeout : option Z) : option ending :=
  match as_argv cmd with
  | Ret argv =>
      match child w argv input_text with
      | Runs p =>
          match timed_out timeout p with
          | Some t => killed p t
          | None => undisturbed p
          end
      | NoSpawn _ => None
      end
  | _ => None
  end.

(** The lines that this child takes from the standard input of the
    program: none when it is given a pipe. *)
Definition lines_taken (w : world) (cmd : list pyval)
    (input_text : option string) (timeout : option Z) : list bool :=
  match input_text with
  | Some _ => []
  | None => from_option lines_read [] (ending_reached w cmd None timeout)
  end.

(** Does [os.unlink(path)] remove the file?  It must be there, and its
    directory must let it go. *)
Definition unlinks (w : world) (path : string) : bool :=
  match fs w !! path, unlink_error w path with
  | Some _, None => true
  | _, _ => false
  end.

(** The answers [approve_action] takes for a yes. *)
Definition says_yes (line : string) : bool :=
  let ans := PyStr.lower (PyStr.strip line) in
  bool_decide (ans = "y") || bool_decide (ans = "yes").

(** The message of the error raised by [exec_shell_command]. *)
Definition approval_error : string :=
  "Safe execution requires approval in noninteractive mode. Set approval_mode='full-auto' or PYCODEX_NONINTERACTIVE=0.".

(** The key-path [backend.<name>.<key>] of the specification, followed in
    the parsed configuration file; [None] when it does not lead to a
    value.  It is what the constructors are compared with. *)
Definition config_entry (cfg : list (string * pyval)) (name key : string)
    : pyval :=
  match Py.assoc "backend" cfg with
  | Some (VDict b) =>
      match Py.assoc name b with
      | Some (VDict t) => default VNone (Py.assoc key t)
      | _ => VNone
      end
  | _ => VNone
  end.

(** The first true value of a list of candidates, else the default. *)
Fixpoint first_truthy (candidates : list pyval) (dflt : pyval) : pyval :=
  match candidates with
  | [] => dflt
  | v :: l => if Py.truthy v then v else first_truthy l dflt
  end.

(** The adapter held by the facade: its fields, whichever the backend. *)
Definition backend_base_cmd (self : PyCodex.t) : pyval :=
  match self with
  | PyCodex.Codex b => CodexBackend.base_cmd b
  | PyCodex.Gemini b => VStr (GeminiBackend.base_cmd b)
  end.

Definition backend_approval_mode (self : PyCodex.t) : pyval :=
  match self with
  | PyCodex.Codex b => CodexBackend.approval_mode b
  | PyCodex.Gemini b => VStr (GeminiBackend.approval_mode b)
  end.

Definition backend_not_found_message (self : PyCodex.t) : string :=
  match self with
  | PyCodex.Codex b => CodexBackend.not_found_message b
  | PyCodex.Gemini b => GeminiBackend.not_found_message b
  end.

(** [self] is an adapter that its constructor returned in the world [w]. *)
Definition constructed_in (w : world) (self : PyCodex.t) : Prop :=
  match self with
  | PyCodex.Codex b =>
      exists model mode w', CodexBackend.__init__ model mode w = (Ret b, w')
  | PyCodex.Gemini b =>
      exists model mode w', GeminiBackend.__init__ model mode w = (Ret b, w')
  end.

(** [which] finds no executable for the adapter's binary in [w]. *)
Definition unresolvable (w : world) (self : PyCodex.t) : Prop :=
  (which (backend_base_cmd self) w).1 = Ret None.

(** What one path adds to the context built by [read_files]. *)
Definition file_chunk (w : world) (p : string) : list string :=
  match fs w !! p with
  | Some (Text content) =>
      [PyStr.newline +:+ "===== FILE: " +:+ p +:+ " =====" +:+ PyStr.newline
       +:+ content +:+ PyStr.newline]
  | _ => []
  end.

(** The line that [read_files] logs for one path. *)
Definition file_log_line (w : world) (p : string) : string :=
  match fs w !! p with
  | Some (Text content) =>
      "Included file: " +:+ p +:+ " (" +:+ pretty (String.length content)
      +:+ " chars)"
  | Some (Unreadable e) =>
      if issubclass (exn_cls e) FileNotFoundError
      then "File not found: " +:+ p
      else "Error reading " +:+ p +:+ ": " +:+ exn_msg e
  | None => "File not found: " +:+ p
  end.

(** The paths [which] tries, in order. *)
Definition which_candidates (w : world) (cmd : string) : list string :=
  (fun dir => posix_join dir cmd)
    <$> PyStr.split ":" (default EmptyString (environ w !! "PATH")).
(** The context that [read_files] builds from the files given. *)
Definition context_of (w : world) (files : option (list string)) : string :=
  PyStr.join EmptyString (concat (file_chunk w <$> default [] files)).

(** The log that [read_files] writes for the files given. *)
Definition file_log_of (w : world) (files : option (list string)) : string :=
  PyStr.join PyStr.newline (file_log_line w <$> default [] files).

(** The text handed to the tool: the payload, then the context under its
    marker when there is one. *)
Definition with_context (payload context : string) : string :=
  if PyStr.truthy context
  then payload +:+ PyStr.newline +:+ PyStr.newline +:+ "[CONTEXT]"
       +:+ PyStr.newline +:+ context
  else payload.
(** * Sample inputs *)

Module Sample.

Definition unterminated : string := "```abc".

(** [pre\n```python\nprint(1)\n```\npost] *)
Definition fenced : string :=
  "pre" +:+ PyStr.newline +:+ "```python" +:+ PyStr.newline +:+ "print(1)"
  +:+ PyStr.newline +:+ "```" +:+ PyStr.newline +:+ "post".

(** A fenced body whose first line is a comment after two blanks. *)
Definition indented_comment : string :=
  "```  #c" +:+ PyStr.newline +:+ "x```".

(** A machine where files can be made in /tmp and removed, started in
    /home/dev: its environment, configuration file, executables, files,
    standard input and children. *)
Definition machine (env : gmap string string) (cfg : list (string * pyval))
    (exe : string -> bool) (f : gmap string file_node) (inp : list string)
    (ch : list string -> option string -> behaviour) : world :=
  World env cfg exe (fun dir => String.eqb dir "/tmp") "/home/dev" f
        (fun _ => None) inp ch 0 [].

(** A child that exits within the first unit of time with its pipes
    closed, and reads nothing from an inherited standard input; killed
    before that, it leaves nothing. *)
Definition exiting (rc : Z) (out err : string)
    (ws : list (string * option file_node)) : process :=
  Process (Some 1%positive) (Some 1%positive)
    (Ending rc (Captured out err) ws [])
    (fun _ => Some (Ending (-9) (Captured EmptyString EmptyString) [] [])).

Definition exits (rc : Z) (out err : string)
    (ws : list (string * option file_node)) : behaviour :=
  Runs (exiting rc out err ws).

(** A child that exits at once with status 0. *)
Definition quiet_child (argv : list string) (input_text : option string)
    : behaviour :=
  exits 0 "done" EmptyString [].

(** A terminal where the user answers n. *)
Definition interactive : world :=
  machine ∅ [] (fun _ => false) ∅ ["n"] quiet_child.

(** An unattended run: [PYCODEX_NONINTERACTIVE=1]. *)
Definition unattended : world :=
  machine {["PYCODEX_NONINTERACTIVE" := "1"]} [] (fun _ => false) ∅ []
        quiet_child.

(** A child that never exits by itself; killed, it has written
    'partial' and its pipes close. *)
Definition slow_child (argv : list string) (input_text : option string)
    : behaviour :=
  Runs (Process None None (Ending 0 (Captured EmptyString EmptyString) [] [])
          (fun _ => Some (Ending (-9) (Captured "partial" EmptyString)
                            [] []))).

(** A child that never exits by itself and writes bytes that are not
    text. *)
Definition noisy_child (argv : list string) (input_text : option string)
    : behaviour :=
  let garbage :=
    Failed (Exn UnicodeDecodeError
              "'utf-8' codec can't decode byte 0xff in position 0: invalid start byte") in
  Runs (Process None None (Ending 0 garbage [] [])
          (fun _ => Some (Ending (-9) garbage [] []))).

(** A child that exits at once with status 0 and leaves a descendant
    that holds its pipes for three units of time ([sleep 3 &]); the
    descendant writes nothing and outlives a kill of the child. *)
Definition forking_child (argv : list string) (input_text : option string)
    : behaviour :=
  Runs (Process (Some 1%positive) (Some 3%positive)
          (Ending 0 (Captured EmptyString EmptyString) [] [])
          (fun _ => Some (Ending 0 (Captured EmptyString EmptyString) [] []))).

(** A child that never exits and leaves a descendant that never closes
    its pipes. *)
Definition daemon_child (argv : list string) (input_text : option string)
    : behaviour :=
  Runs (Process None None (Ending 0 (Captured EmptyString EmptyString) [] [])
          (fun _ => None)).

(** A child that reads one line of the standard input it inherits
    ([read x]). *)
Definition reading_child (argv : list string) (input_text : option string)
    : behaviour :=
  Runs (Process (Some 1%positive) (Some 1%positive)
          (Ending 0 (Captured EmptyString EmptyString) [] [true])
          (fun _ => Some (Ending (-9) (Captured EmptyString EmptyString)
                            [] []))).

Definition slow : world :=
  machine ∅ [] (fun _ => false) ∅ [] slow_child.

Definition noisy : world :=
  machine ∅ [] (fun _ => false) ∅ [] noisy_child.

Definition forking : world :=
  machine ∅ [] (fun _ => false) ∅ [] forking_child.

Definition haunted : world :=
  machine ∅ [] (fun _ => false) ∅ [] daemon_child.

(** A terminal with two lines typed ahead, and a command that reads. *)
Definition typed_ahead : world :=
  machine ∅ [] (fun _ => false) ∅ ["first"; "second"] reading_child.

(** [TMPDIR=scratch/] in /home/dev, where files can be made; in /tmp,
    an old file bears the first name that would be drawn there. *)
Definition relocated : world :=
  World {["TMPDIR" := "scratch/"]} [] (fun _ => false)
        (fun dir => String.eqb dir "/home/dev/scratch") "/home/dev"
        {["/tmp/pycodex_last_msg_0.txt" := Text "old"]} (fun _ => None) []
        quiet_child 0 [].

(** A machine where nothing can be removed from /tmp. *)
Definition sticky : world :=
  World {["PATH" := "/usr/bin"]} [] (fun path => String.eqb path "/usr/bin/codex")
        (fun dir => String.eqb dir "/tmp") "/home/dev" ∅
        (fun path => Some (Exn OSError
                             ("[Errno 30] Read-only file system: "
                              +:+ Py.repr_str path)))
        [] quiet_child 0 [].

(** The codex adapter as constructed where no binary is installed. *)
Definition codex_missing : CodexBackend.t :=
  CodexBackend.mk (VStr "gpt-5-codex") (VStr "suggest") (VStr "codex")
    false true false.

(** A configuration file that sets the model and the approval mode of
    both backends, and no environment variable. *)
Definition configured : world :=
  machine ∅
    [("backend",
      VDict [("codex", VDict [("model", VStr "o3");
                              ("approval_mode", VStr "full-auto")]);
             ("gemini", VDict [("model", VStr "gemini-2")])])]
    (fun _ => false) ∅ [] Sample.quiet_child.

(** The codex adapter constructed there without arguments of its own. *)
Definition codex_from_config : CodexBackend.t :=
  CodexBackend.mk (VStr "o3") (VStr "full-auto") (VStr "codex")
    false true false.

(** The binaries installed under /usr/bin. *)
Definition installed (path : string) : bool :=
  bool_decide (path = "/usr/bin/codex") || bool_decide (path = "/usr/bin/gemini").

(** The tool rejects its arguments: exit status 2, 'bad flag' on stderr. *)
Definition failing_child (argv : list string) (input_text : option string)
    : behaviour :=
  exits 2 EmptyString "bad flag" [].

(** The same, but the tool has left bytes that are not UTF-8 in the file
    named by its last argument. *)
Definition garbling_child (argv : list string) (input_text : option string)
    : behaviour :=
  exits 2 EmptyString "bad flag"
    [(default EmptyString (last argv),
      Some (Unreadable
              (Exn UnicodeDecodeError
                 "'utf-8' codec can't decode byte 0xff in position 0: invalid start byte")))].

Definition failing : world :=
  machine {["PATH" := "/usr/bin"]} [] installed ∅ [] failing_child.

Definition garbled : world :=
  machine {["PATH" := "/usr/bin"]} [] installed ∅ [] garbling_child.

Definition codex_installed : CodexBackend.t :=
  CodexBackend.mk (VStr "gpt-5-codex") (VStr "suggest") (VStr "codex")
    false true true.

Definition gemini_installed : GeminiBackend.t :=
  GeminiBackend.mk (Some "gemini-1") "suggest" "gemini" true.

(** A terminal where the user answers y. *)
Definition consenting : world :=
  machine ∅ [] (fun _ => false) ∅ ["y"] quiet_child.

(** [```\ndef f(): pass\n```] *)
Definition answer : string :=
  "```" +:+ PyStr.newline +:+ "def f(): pass" +:+ PyStr.newline +:+ "```".

(** The tool answers on its standard output and in the file named by its
    last argument, and exits with status 0. *)
Definition working_child (argv : list string) (input_text : option string)
    : behaviour :=
  exits 0 answer EmptyString
    [(default EmptyString (last argv), Some (Text answer))].

Definition working : world :=
  machine {["PATH" := "/usr/bin"]} [] installed ∅ [] working_child.



(** A session: a blank line, a request, then exit. *)
Definition session : world :=
  machine {["PATH" := "/usr/bin"]} [] installed ∅
    ["   "; "write f"; " exit "; "never read"] working_child.

(** A user who leaves at once. *)
Definition leaving : world :=
  machine ∅ [] (fun _ => false) ∅ [" quit "; "never read"] quiet_child.

(** Blank lines, then the end of the input. *)
Definition idle : world :=
  machine ∅ [] (fun _ => false) ∅ ["   "; EmptyString] quiet_child.

(** An unattended session that starts with a shell escape. *)
Definition unattended_session : world :=
  machine {["PYCODEX_NONINTERACTIVE" := "1"]} [] (fun _ => false) ∅
    ["!ls"; "never read"] quiet_child.

End Sample.

(** * Properties *)

Ltac msimpl :=
  unfold mbind, mret, M_bind, M_ret, res_bind, res_ret, raise, reraise, hang,
    lift, emit;
  cbn beta iota.

(** ** Strings *)

Section string_facts.

Implicit Types (s t u cur sep : string) (c : ascii).

Lemma append_cons c s t : String c s +:+ t = String c (s +:+ t).
Proof. reflexivity. Qed.

Lemma append_nil s : EmptyString +:+ s = s.
Proof. reflexivity. Qed.

Lemma append_assoc s t u : (s +:+ t) +:+ u = s +:+ (t +:+ u).
Proof.
  induction s as [|c s IH]; [done |].
  by rewrite !append_cons, IH.
Qed.

Lemma append_empty_r s : s +:+ EmptyString = s.
Proof. induction s as [|c s IH]; [done |]. by rewrite append_cons, IH. Qed.

Lemma append_snoc cur c s :
  (cur +:+ String c EmptyString) +:+ s = cur +:+ String c s.
Proof. by rewrite append_assoc. Qed.

Lemma prefix_cons c sub a s :
  String.prefix (String c sub) (String a s)
  = bool_decide (c = a) && String.prefix sub s.
Proof. simpl. destruct (ascii_dec c a); by case_bool_decide. Qed.

Lemma prefix_append sub s : String.prefix sub (sub +:+ s) = true.
Proof.
  induction sub as [|c sub IH]; [by destruct s |].
  rewrite append_cons, prefix_cons, IH. by rewrite bool_decide_eq_true_2.
Qed.

Lemma prefix_split sub s :
  String.prefix sub s = true -> exists post, s = sub +:+ post.
Proof.
  revert s. induction sub as [|c sub IH]; intros s H.
  - by exists s.
  - destruct s as [|a s]; [done |].
    rewrite prefix_cons in H. apply andb_true_iff in H as [Hc H].
    apply bool_decide_eq_true in Hc as ->.
    destruct (IH _ H) as [post ->]. by exists post.
Qed.

Lemma contains_unfold sub s :
  PyStr.contains sub s
  = String.prefix sub s
    || match s with
       | EmptyString => false
       | String _ s' => PyStr.contains sub s'
       end.
Proof. by destruct s. Qed.

Lemma contains_prefix sub s :
  String.prefix sub s = true -> PyStr.contains sub s = true.
Proof. intros H. by rewrite contains_unfold, H. Qed.

(** [sub in s] holds exactly when [s] is [pre + sub + post]. *)
Lemma contains_append sub pre post :
  PyStr.contains sub (pre +:+ sub +:+ post) = true.
Proof.
  induction pre as [|c pre IH].
  - rewrite append_nil. apply contains_prefix, prefix_append.
  - rewrite append_cons, contains_unfold, IH. apply orb_true_r.
Qed.

Lemma contains_split sub s :
  PyStr.contains sub s = true -> exists pre post, s = pre +:+ sub +:+ post.
Proof.
  induction s as [|c s IH]; rewrite contains_unfold; intros H.
  - rewrite orb_false_r in H. apply prefix_split in H as [post E].
    by exists EmptyString, post.
  - apply orb_true_iff in H as [H|H].
    + apply prefix_split in H as [post ->]. by exists EmptyString, post.
    + destruct (IH H) as (pre & post & ->). by exists (String c pre), post.
Qed.

Lemma split_go_cons sep budget cur c s :
  PyStr.split_go sep budget 0 cur (String c s)
  = match budget with
    | Some O => [cur +:+ String c s]
    | _ =>
        if String.prefix sep (String c s)
        then cur :: PyStr.split_go sep (pred <$> budget)
                      (String.length sep - 1) EmptyString s
        else PyStr.split_go sep budget 0 (cur +:+ String c EmptyString) s
    end.
Proof. reflexivity. Qed.

(** No separator, no split. *)
Lemma split_go_absent sep budget cur s :
  PyStr.contains sep s = false ->
  PyStr.split_go sep budget 0 cur s = [cur +:+ s].
Proof.
  revert cur. induction s as [|c s IH]; intros cur H.
  - by rewrite append_empty_r.
  - rewrite contains_unfold in H. apply orb_false_iff in H as [Hp Hc].
    rewrite split_go_cons, Hp, IH, append_snoc by done.
    by destruct budget as [[|n]|].
Qed.

Lemma split_absent sep s :
  PyStr.contains sep s = false -> PyStr.split sep s = [s].
Proof. intros H. unfold PyStr.split. by rewrite split_go_absent. Qed.

(** Two segments or more: the separator occurs. *)
Lemma split_length_contains sep s :
  (2 <= length (PyStr.split sep s))%nat -> PyStr.contains sep s = true.
Proof.
  intros H. destruct (PyStr.contains sep s) eqn:E; [done |].
  rewrite split_absent in H by done. simpl in H. lia.
Qed.

(** [body.split('\n', 1)] cuts at the first newline. *)
Lemma split_max_first_line cur first_line rest :
  PyStr.contains PyStr.newline first_line = false ->
  PyStr.split_go PyStr.newline (Some 1%nat) 0 cur
    (first_line +:+ PyStr.newline +:+ rest)
  = [cur +:+ first_line; rest].
Proof.
  revert cur. induction first_line as [|c fl IH]; intros cur H.
  - rewrite append_empty_r, append_nil. by destruct rest.
  - rewrite contains_unfold in H. apply orb_false_iff in H as [Hp Hc].
    rewrite append_cons, split_go_cons.
    replace (String.prefix PyStr.newline
               (String c (fl +:+ PyStr.newline +:+ rest))) with false.
    + rewrite IH by done. by rewrite append_snoc.
    + unfold PyStr.newline in *. rewrite prefix_cons in *.
      destruct (bool_decide _); [|done]. by destruct fl.
Qed.


Lemma lstrip_head s :
  PyStr.lstrip s = EmptyString
  \/ exists c s', PyStr.lstrip s = String c s' /\ PyStr.isspace c = false.
Proof.
  induction s as [|c s IH]; [by left |].
  cbn [PyStr.lstrip]. destruct (PyStr.isspace c) eqn:E; [done |].
  right. by exists c, s.
Qed.

Lemma rstrip_cons c s :
  PyStr.rstrip (String c s)
  = match PyStr.rstrip s with
    | EmptyString =>
        if PyStr.isspace c then EmptyString else String c EmptyString
    | r => String c r
    end.
Proof. reflexivity. Qed.

Lemma rstrip_cons_nonspace c s :
  PyStr.isspace c = false ->
  PyStr.rstrip (String c s) = String c (PyStr.rstrip s).
Proof. intros H. rewrite rstrip_cons, H. by destruct (PyStr.rstrip s). Qed.

Lemma rstrip_idemp s : PyStr.rstrip (PyStr.rstrip s) = PyStr.rstrip s.
Proof.
  induction s as [|c s IH]; [done |].
  rewrite rstrip_cons. destruct (PyStr.rstrip s) as [|a r] eqn:E.
  - destruct (PyStr.isspace c) eqn:Hc; [done |].
    by rewrite rstrip_cons, Hc.
  - by rewrite rstrip_cons, IH.
Qed.

Lemma strip_idemp s : PyStr.strip (PyStr.strip s) = PyStr.strip s.
Proof.
  unfold PyStr.strip.
  destruct (lstrip_head s) as [->|(c & s' & -> & Hc)]; [done |].
  rewrite rstrip_cons_nonspace by done.
  cbn [PyStr.lstrip]. rewrite Hc.
  rewrite <- rstrip_cons_nonspace by done. apply rstrip_idemp.
Qed.

(** A first line of white space only, and the newline after it, are
    stripped away with the rest of the leading white space. *)
Lemma lstrip_blank_prefix s t :
  PyStr.strip s = EmptyString -> PyStr.lstrip (s +:+ t) = PyStr.lstrip t.
Proof.
  unfold PyStr.strip. induction s as [|c s IH]; [done |].
  rewrite append_cons. cbn [PyStr.lstrip].
  destruct (PyStr.isspace c) eqn:Hc; [done |].
  rewrite rstrip_cons_nonspace by done. done.
Qed.

End string_facts.

(** ** The output parser *)

Section parser.

Implicit Types (output body pre first_line rest : string).

(** A string that holds a newline has a first line. *)
Lemma first_line_exists body :
  PyStr.contains PyStr.newline body = true ->
  exists first_line rest,
    body = first_line +:+ PyStr.newline +:+ rest
    /\ PyStr.contains PyStr.newline first_line = false.
Proof.
  induction body as [|c s IH]; [done |].
  rewrite contains_unfold. unfold PyStr.newline at 1. rewrite prefix_cons.
  case_bool_decide as Hc.
  - intros _. exists EmptyString, s. by rewrite <- Hc.
  - intros H. destruct (IH H) as (fl & rest & -> & Hfl).
    exists (String c fl), rest. split; [done |].
    rewrite contains_unfold. unfold PyStr.newline at 1.
    rewrite prefix_cons, bool_decide_eq_false_2 by done. done.
Qed.

Lemma parse_unfold_fenced output pre body :
  let segments := PyStr.split fence output in
  (3 <= length segments)%nat ->
  segments !! 0%nat = Some pre ->
  segments !! 1%nat = Some body ->
  parse_code_and_text output
  = (code ← code_of_body body;
     mret (PyStr.strip code,
           PyStr.strip (pre +:+ PyStr.join EmptyString (drop 2 segments)))).
Proof.
  intros segments Hlen Hpre Hbody. unfold parse_code_and_text.
  rewrite split_length_contains by (fold segments; lia).
  fold segments. apply Nat.leb_le in Hlen. rewrite Hlen.
  unfold index. rewrite Hbody, Hpre. unfold code_of_body.
  cbn [mbind mret res_bind res_ret].
  destruct (PyStr.contains PyStr.newline body);
    cbn [mbind mret res_bind res_ret]; [|by rewrite strip_idemp].
  destruct (unpack2 _) as [[fl rest]| |];
    cbn [mbind mret res_bind res_ret]; [|done..].
  by rewrite strip_idemp.
Qed.

Lemma code_of_body_lines first_line rest :
  PyStr.contains PyStr.newline first_line = false ->
  code_of_body (first_line +:+ PyStr.newline +:+ rest)
  = Ret (if bool_decide (PyStr.strip first_line = EmptyString)
            || PyStr.startswith (PyStr.strip first_line) "#"
         then first_line +:+ PyStr.newline +:+ rest else rest).
Proof.
  intros H. unfold code_of_body, PyStr.split_max.
  rewrite contains_append, split_max_first_line by done.
  rewrite append_nil. cbn [unpack2 mbind mret res_bind res_ret].
  f_equal. destruct (PyStr.strip first_line) as [|c s]; [done |].
  cbn [PyStr.truthy andb]. case_bool_decide; [done |]. cbn [orb].
  by destruct (PyStr.startswith _ _).
Qed.

End parser.

Section parser_claims.

Implicit Types (output body pre first_line rest : string).

(** The parser raises on no input. *)
Lemma parse_code_and_text_total output :
  exists code text, parse_code_and_text output = Ret (code, text).
Proof.
  unfold parse_code_and_text.
  destruct (PyStr.contains fence output) eqn:Hin; [|by eauto].
  destruct (3 <=? length (PyStr.split fence output))%nat eqn:Hlen;
    [|by eauto].
  apply Nat.leb_le in Hlen.
  destruct (PyStr.split fence output) as [|pre [|body l]] eqn:E;
    [simpl in Hlen; lia..|].
  pose proof (parse_unfold_fenced output pre body) as H.
  rewrite E in H. specialize (H Hlen eq_refl eq_refl).
  unfold parse_code_and_text in H.
  rewrite Hin, E in H.
  apply Nat.leb_le in Hlen. rewrite Hlen in H. rewrite H.
  unfold code_of_body.
  destruct (PyStr.contains PyStr.newline body) eqn:Hnl; [|by eauto].
  destruct (first_line_exists body Hnl) as (fl & rest & -> & Hfl).
  unfold PyStr.split_max. rewrite split_max_first_line by done.
  by eauto.
Qed.

(** C8, as amended. For an output with a fenced block (three segments or
    more after splitting on the fence), the code is taken from the first
    fenced body: when the body has a first line followed by a newline,
    that line is dropped and the remainder is the code, unless the line,
    once stripped of surrounding white space, is empty or begins with
    '#', in which case the whole body is the code; a body without a
    newline is the code as it is.  The code and the text (the segment
    before the fence joined with those after the body) are returned
    stripped. *)
Theorem parse_code_and_text_fenced output pre body :
  let segments := PyStr.split fence output in
  (3 <= length segments)%nat ->
  segments !! 0%nat = Some pre ->
  segments !! 1%nat = Some body ->
  let text := PyStr.strip (pre +:+ PyStr.join EmptyString (drop 2 segments)) in
  (forall first_line rest,
      body = first_line +:+ PyStr.newline +:+ rest ->
      PyStr.contains PyStr.newline first_line = false ->
      parse_code_and_text output
      = Ret (PyStr.strip
               (if bool_decide (PyStr.strip first_line = EmptyString)
                   || PyStr.startswith (PyStr.strip first_line) "#"
                then body else rest),
             text))
  /\ (PyStr.contains PyStr.newline body = false ->
      parse_code_and_text output = Ret (PyStr.strip body, text))
  /\ (exists code, parse_code_and_text output = Ret (code, text)
                   /\ PyStr.strip code = code /\ PyStr.strip text = text).
Proof.
  intros segments Hlen Hpre Hbody text.
  rewrite (parse_unfold_fenced output pre body) by done.
  fold segments. fold text. split; [|split].
  - intros fl rest -> Hfl. by rewrite code_of_body_lines.
  - intros Hnl. unfold code_of_body. by rewrite Hnl.
  - destruct (PyStr.contains PyStr.newline body) eqn:Hnl.
    + destruct (first_line_exists body Hnl) as (fl & rest & -> & Hfl).
      rewrite code_of_body_lines by done.
      eexists. split; [done |]. unfold text. by rewrite !strip_idemp.
    + unfold code_of_body. rewrite Hnl.
      eexists. split; [done |]. unfold text. by rewrite !strip_idemp.
Qed.

Lemma parse_code_and_text_fenced_witness :
  parse_code_and_text Sample.fenced
  = Ret ("print(1)", "pre" +:+ PyStr.newline +:+ PyStr.newline +:+ "post").
Proof.
  destruct (parse_code_and_text_fenced Sample.fenced
              ("pre" +:+ PyStr.newline)
              ("python" +:+ PyStr.newline +:+ "print(1)" +:+ PyStr.newline))
    as [H _]; [vm_compute; lia | reflexivity | reflexivity |].
  rewrite (H "python" ("print(1)" +:+ PyStr.newline)) by reflexivity.
  reflexivity.
Defined.

(** C8 as first stated fails: the test is made on the stripped first
    line.  Here the first line is two blanks then [#c]: it is not empty
    and does not begin with '#', yet it is kept. *)
Lemma parse_first_line_literal_counterexample :
  let first_line := "  #c" in
  let rest := "x" in
  let body := first_line +:+ PyStr.newline +:+ rest in
  Sample.indented_comment = fence +:+ body +:+ fence
  /\ PyStr.split fence Sample.indented_comment
     = [EmptyString; body; EmptyString]
  /\ PyStr.contains PyStr.newline first_line = false
  /\ first_line <> EmptyString
  /\ PyStr.startswith first_line "#" = false
  /\ parse_code_and_text Sample.indented_comment
     = Ret ("#c" +:+ PyStr.newline +:+ "x", EmptyString)
  /\ parse_code_and_text Sample.indented_comment
     <> Ret (PyStr.strip rest, EmptyString).
Proof. repeat split; try reflexivity; discriminate. Qed.

(** C10. When the fence occurs in the output but splitting on it gives
    fewer than three segments, the parser returns, without raising, an
    empty code and the whole output stripped as text. *)
Theorem parse_code_and_text_unterminated output :
  PyStr.contains fence output = true ->
  (length (PyStr.split fence output) < 3)%nat ->
  parse_code_and_text output = Ret (EmptyString, PyStr.strip output).
Proof.
  intros Hin Hlen. unfold parse_code_and_text. rewrite Hin.
  apply Nat.leb_gt in Hlen. by rewrite Hlen.
Qed.

Lemma parse_code_and_text_unterminated_witness :
  parse_code_and_text Sample.unterminated = Ret (EmptyString, "```abc").
Proof.
  apply (parse_code_and_text_unterminated Sample.unterminated);
    vm_compute; [reflexivity | lia].
Defined.

End parser_claims.

(** ** The approval gate *)

Section gate.

Implicit Types (command : string) (w : world) (mode : pyval).

Lemma new_events_app w w' evs :
  trace w' = trace w ++ evs -> new_events w w' = evs.
Proof. intros H. unfold new_events. by rewrite H, drop_app_length. Qed.

Lemma is_noninteractive_true w :
  environ w !! "PYCODEX_NONINTERACTIVE" = Some "1" ->
  is_noninteractive w = (Ret true, w).
Proof. intros H. unfold is_noninteractive, getenv_str. msimpl. by rewrite H. Qed.

Lemma is_noninteractive_false w :
  environ w !! "PYCODEX_NONINTERACTIVE" <> Some "1" ->
  is_noninteractive w = (Ret false, w).
Proof.
  intros H. unfold is_noninteractive, getenv_str. msimpl.
  destruct (environ w !! _) as [v|]; cbn [default from_option id]; [|done].
  rewrite bool_decide_eq_false_2; [done | congruence].
Qed.

(** The modes that skip the gate. *)
Lemma exec_shell_command_direct command safe mode :
  safe = false \/ mode = VStr "full-auto" \/ mode = VStr "auto-edit" ->
  exec_shell_command command safe mode
  = run_subprocess [VStr "bash"; VStr "-lc"; VStr command] None None.
Proof.
  unfold exec_shell_command. intros [->|[->| ->]]; [done | |].
  - by rewrite orb_true_r.
  - by destruct safe.
Qed.

(** Every other mode takes the 'suggest' path. *)
Lemma exec_shell_command_gated command mode :
  mode <> VStr "full-auto" -> mode <> VStr "auto-edit" ->
  exec_shell_command command true mode
  = (ni ← is_noninteractive;
     if ni : bool then raise ExecutionError approval_error
     else
       ok ← approve_action ("Execute command: " +:+ command);
       if ok : bool
       then run_subprocess [VStr "bash"; VStr "-lc"; VStr command] None None
       else mret (125, EmptyString, "Command not approved by user")).
Proof.
  intros H1 H2. unfold exec_shell_command.
  assert (Py.eq_str mode "full-auto" = false) as ->.
  { destruct mode; try done. cbn. rewrite bool_decide_eq_false_2; congruence. }
  assert (Py.eq_str mode "auto-edit" = false) as ->.
  { destruct mode; try done. cbn. rewrite bool_decide_eq_false_2; congruence. }
  done.
Qed.

(** What [approve_action] does in an interactive context. *)
Lemma approve_action_interactive prompt w :
  environ w !! "PYCODEX_NONINTERACTIVE" <> Some "1" ->
  approve_action prompt w
  = match stdin w with
    | [] => (Ret false, with_trace (EvPrompt (prompt +:+ " [y/N]: ")) w)
    | line :: rest =>
        (Ret (says_yes line),
         with_stdin rest (with_trace (EvPrompt (prompt +:+ " [y/N]: ")) w))
    end.
Proof.
  intros H. unfold approve_action. unfold mbind at 1, M_bind.
  rewrite is_noninteractive_false by done.
  unfold try_except, input. msimpl.
  by destruct (stdin w).
Qed.

Lemma or_empty s : PyStr.or_ s EmptyString = s.
Proof. by destruct s. Qed.

Lemma undisturbed_some p e : undisturbed p = Some e -> e = normal p.
Proof.
  unfold undisturbed. destruct (eof_after p), (exit_after p); congruence.
Qed.


(** What [run_subprocess] does with a child that can be started. *)
Lemma run_subprocess_runs cmd argv input timeout w p :
  as_argv cmd = Ret argv ->
  child w argv input = Runs p ->
  run_subprocess cmd input timeout w
  = let w1 := with_trace (EvSpawn argv input) w in
    match timed_out timeout p with
    | Some t =>
        outcome_of 124 "Timeout expired" input (killed p t)
          (with_trace EvKill w1)
    | None =>
        outcome_of (returncode (normal p)) EmptyString input (undisturbed p) w1
    end.
Proof.
  intros Hargv Hchild. unfold run_subprocess, Popen. msimpl.
  rewrite Hargv, Hchild. cbn zeta.
  destruct (timed_out timeout p) as [t|]; msimpl.
  - destruct (killed p t) as [e|]; [|done]. cbn.
    destruct (captured e); [|done]. by rewrite or_empty.
  - destruct (undisturbed p) as [e|]; [|done]. cbn.
    destruct (captured e); [|done]. by rewrite !or_empty.
Qed.

Lemma as_argv_no_hang cmd : as_argv cmd <> Hang.
Proof.
  induction cmd as [|v cmd IH]; [done |].
  destruct v; try done. cbn. by destruct (as_argv cmd).
Qed.

(** [run_subprocess], case by case: no child is started and the
    exception leaves everything as it was, or a child is started. *)
Lemma run_subprocess_cases cmd input timeout w :
  (ending_reached w cmd input timeout = None
   /\ exists e, run_subprocess cmd input timeout w = (Raise e, w))
  \/ exists argv p,
       as_argv cmd = Ret argv
       /\ child w argv input = Runs p
       /\ run_subprocess cmd input timeout w
          = let w1 := with_trace (EvSpawn argv input) w in
            match timed_out timeout p with
            | Some t =>
                outcome_of 124 "Timeout expired" input (killed p t)
                  (with_trace EvKill w1)
            | None =>
                outcome_of (returncode (normal p)) EmptyString input
                  (undisturbed p) w1
            end.
Proof.
  destruct (as_argv cmd) as [argv|e|] eqn:Hargv.
  - destruct (child w argv input) as [e|p] eqn:Hchild.
    + left. unfold ending_reached, run_subprocess, Popen. msimpl.
      rewrite Hargv, Hchild. eauto.
    + right. exists argv, p. split; [done |]. split; [done |].
      by apply run_subprocess_runs.
  - left. unfold ending_reached, run_subprocess. msimpl. rewrite Hargv. eauto.
  - by destruct (as_argv_no_hang cmd).
Qed.

Lemma outcome_of_world status dflt input e w :
  let w' := (outcome_of status dflt input e w).2 in
  trace w' = trace w
  /\ stdin w' = unread (match input with
                        | Some _ => []
                        | None => from_option lines_read [] e
                        end) (stdin w).
Proof. by destruct e as [e|], input. Qed.

(** [run_subprocess] asks nothing; the lines gone from standard input
    are those the child has read. *)
Lemma run_subprocess_no_prompt cmd input timeout w :
  let w' := (run_subprocess cmd input timeout w).2 in
  stdin w' = unread (lines_taken w cmd input timeout) (stdin w)
  /\ exists evs, trace w' = trace w ++ evs /\ existsb is_prompt evs = false.
Proof.
  cbn zeta.
  destruct (run_subprocess_cases cmd input timeout w)
    as [[Hnone [e ->]]|(argv & p & Hargv & Hchild & ->)].
  { split; [|exists []; by rewrite app_nil_r].
    unfold lines_taken. destruct input; [done |]. by rewrite Hnone. }
  assert (ending_reached w cmd input timeout
          = match timed_out timeout p with
            | Some t => killed p t
            | None => undisturbed p
            end) as Hend.
  { unfold ending_reached. by rewrite Hargv, Hchild. }
  cbn zeta. unfold lines_taken.
  destruct (timed_out timeout p) as [t|].
  - destruct (outcome_of_world 124 "Timeout expired" input (killed p t)
                (with_trace EvKill (with_trace (EvSpawn argv input) w)))
      as [Htr Hin].
    split; [destruct input; [done | by rewrite Hend] |].
    exists [EvSpawn argv input; EvKill].
    rewrite Htr. cbn. by rewrite <- app_assoc.
  - destruct (outcome_of_world (returncode (normal p)) EmptyString input
                (undisturbed p) (with_trace (EvSpawn argv input) w))
      as [Htr Hin].
    split; [destruct input; [done | by rewrite Hend] |].
    exists [EvSpawn argv input]. by rewrite Htr.
Qed.

(** A child that can be started is recorded as spawned. *)
Lemma run_subprocess_spawns cmd argv input timeout w p :
  as_argv cmd = Ret argv ->
  child w argv input = Runs p ->
  EvSpawn argv input
    ∈ new_events w (run_subprocess cmd input timeout w).2.
Proof.
  intros Hargv Hchild.
  rewrite (run_subprocess_runs _ argv _ _ _ p) by done. cbn zeta.
  destruct (timed_out timeout p) as [t|].
  - destruct (outcome_of_world 124 "Timeout expired" input (killed p t)
                (with_trace EvKill (with_trace (EvSpawn argv input) w)))
      as [Htr _].
    rewrite (new_events_app _ _ [EvSpawn argv input; EvKill]);
      [set_solver | rewrite Htr; cbn; by rewrite <- app_assoc].
  - destruct (outcome_of_world (returncode (normal p)) EmptyString input
                (undisturbed p) (with_trace (EvSpawn argv input) w))
      as [Htr _].
    rewrite (new_events_app _ _ [EvSpawn argv input]); [set_solver | done].
Qed.


(** C4. With [safe] false, or in 'full-auto' mode, the command is run
    at once: the call is the call of [run_subprocess] on the bash
    command line, in every world (interactive or not, whatever standard
    input holds); nothing is asked, the gate reads no input (the lines
    gone from standard input are those the child has read), and a child
    that can be started is spawned. *)
Theorem exec_shell_command_immediate command safe mode w :
  safe = false \/ mode = VStr "full-auto" ->
  let cmd := [VStr "bash"; VStr "-lc"; VStr command] in
  let w' := (exec_shell_command command safe mode w).2 in
  exec_shell_command command safe mode w = run_subprocess cmd None None w
  /\ stdin w' = unread (lines_taken w cmd None None) (stdin w)
  /\ existsb is_prompt (new_events w w') = false
  /\ (forall p,
         child w ["bash"; "-lc"; command] None = Runs p ->
         EvSpawn ["bash"; "-lc"; command] None ∈ new_events w w').
Proof.
  intros H cmd w'. subst w'.
  rewrite exec_shell_command_direct by tauto. fold cmd.
  destruct (run_subprocess_no_prompt cmd None None w)
    as (Hin & evs & Htr & Hevs).
  repeat split; [done | by rewrite (new_events_app _ _ evs) |].
  intros p Hchild.
  by eapply run_subprocess_spawns.
Qed.

Lemma exec_shell_command_immediate_witness :
  exec_shell_command "ls" false (VStr "suggest") Sample.unattended
  = run_subprocess [VStr "bash"; VStr "-lc"; VStr "ls"] None None
      Sample.unattended.
Proof.
  apply (exec_shell_command_immediate "ls" false (VStr "suggest")
           Sample.unattended).
  left. reflexivity.
Defined.

(** C2, as amended. In 'suggest' mode with [safe] true and the
    non-interactive mode on, the gate raises [ExecutionError]; the world
    is left as it was, so the command is not run and nothing is asked. *)
Theorem exec_shell_command_noninteractive command w :
  environ w !! "PYCODEX_NONINTERACTIVE" = Some "1" ->
  exec_shell_command command true (VStr "suggest") w
  = (Raise (Exn ExecutionError approval_error), w).
Proof.
  intros H. rewrite exec_shell_command_gated by done.
  unfold mbind, M_bind. by rewrite is_noninteractive_true.
Qed.

Lemma exec_shell_command_noninteractive_witness :
  exec_shell_command "ls" true (VStr "suggest") Sample.unattended
  = (Raise (Exn ExecutionError approval_error), Sample.unattended).
Proof.
  apply (exec_shell_command_noninteractive "ls" Sample.unattended).
  reflexivity.
Defined.

(** C2 as first stated fails: the exception raised is an
    [ExecutionError]; no class of the program is named
    ApprovalRequiredError. *)
Lemma exec_shell_command_noninteractive_counterexample :
  environ Sample.unattended !! "PYCODEX_NONINTERACTIVE" = Some "1"
  /\ (exists msg,
        (exec_shell_command "ls" true (VStr "suggest") Sample.unattended).1
        = Raise (Exn ExecutionError msg))
  /\ ~ (exists e,
          (exec_shell_command "ls" true (VStr "suggest") Sample.unattended).1
          = Raise e
          /\ class_name (exn_cls e) = "ApprovalRequiredError").
Proof.
  split; [reflexivity |]. split; [by eexists |].
  intros (e & He & Hcls). vm_compute in He. by inversion He; subst.
Qed.

(** In 'suggest' mode a child is spawned only after a prompt answered
    by y or yes, in an interactive context. *)
Lemma suggest_spawn_confirmed command w argv input :
  let w' := (exec_shell_command command true (VStr "suggest") w).2 in
  EvSpawn argv input ∈ new_events w w' ->
  environ w !! "PYCODEX_NONINTERACTIVE" <> Some "1"
  /\ EvPrompt ("Execute command: " +:+ command +:+ " [y/N]: ")
       ∈ new_events w w'
  /\ exists line rest, stdin w = line :: rest /\ says_yes line = true.
Proof.
  rewrite exec_shell_command_gated by done. unfold mbind at 1, M_bind.
  destruct (decide (environ w !! "PYCODEX_NONINTERACTIVE" = Some "1"))
    as [Hni|Hni].
  { rewrite is_noninteractive_true by done. msimpl. cbn [snd].
    unfold new_events. rewrite drop_all. set_solver. }
  rewrite is_noninteractive_false by done. unfold mbind, M_bind.
  rewrite approve_action_interactive by done.
  set (p := EvPrompt _).
  destruct (stdin w) as [|line rest] eqn:Hin.
  { msimpl. cbn [snd]. rewrite (new_events_app _ _ [p]) by done.
    rewrite list_elem_of_singleton. done. }
  destruct (says_yes line) eqn:Hyes.
  2:{ msimpl. cbn [snd]. rewrite (new_events_app _ _ [p]) by done.
      rewrite list_elem_of_singleton. done. }
  set (w1 := with_stdin rest (with_trace p w)).
  destruct (run_subprocess_no_prompt
              [VStr "bash"; VStr "-lc"; VStr command] None None w1)
    as (_ & evs & Htr & _).
  destruct (run_subprocess _ _ _ w1) as [r w2]. cbn [snd] in *.
  intros _. split; [done |]. split; [|by eauto].
  rewrite (new_events_app _ _ (p :: evs)); [set_solver |].
  rewrite Htr. cbn. by rewrite <- app_assoc.
Qed.

(** C3. With [safe] true, a mode that is none of 'suggest', 'auto-edit'
    and 'full-auto' is treated as 'suggest': the call is the same
    computation, and it spawns a child only after the prompt was shown
    and answered by y or yes in an interactive context. *)
Theorem exec_shell_command_unrecognized_mode command mode w :
  mode <> VStr "suggest" ->
  mode <> VStr "auto-edit" ->
  mode <> VStr "full-auto" ->
  let w' := (exec_shell_command command true mode w).2 in
  exec_shell_command command true mode w
  = exec_shell_command command true (VStr "suggest") w
  /\ (forall argv input,
         EvSpawn argv input ∈ new_events w w' ->
         environ w !! "PYCODEX_NONINTERACTIVE" <> Some "1"
         /\ EvPrompt ("Execute command: " +:+ command +:+ " [y/N]: ")
              ∈ new_events w w'
         /\ exists line rest, stdin w = line :: rest /\ says_yes line = true).
Proof.
  intros _ Hae Hfa w'. subst w'.
  assert (exec_shell_command command true mode
          = exec_shell_command command true (VStr "suggest")) as ->.
  { by rewrite !exec_shell_command_gated. }
  split; [done |]. intros argv input. apply suggest_spawn_confirmed.
Qed.

Lemma exec_shell_command_unrecognized_mode_witness :
  exec_shell_command "ls" true (VStr "yolo") Sample.interactive
  = exec_shell_command "ls" true (VStr "suggest") Sample.interactive.
Proof.
  apply (exec_shell_command_unrecognized_mode "ls" (VStr "yolo")
           Sample.interactive); discriminate.
Defined.

(** C5. In 'suggest' mode with [safe] true, in an interactive context
    where the answer to the prompt is not y or yes (any other line,
    empty included, or the end of input), the gate returns status 125
    with the error text 'Command not approved by user': no exception,
    and the only effect is the prompt and the line read. *)
Theorem exec_shell_command_declined command w :
  environ w !! "PYCODEX_NONINTERACTIVE" <> Some "1" ->
  match stdin w with
  | [] => True
  | line :: _ =>
      PyStr.lower (PyStr.strip line) <> "y"
      /\ PyStr.lower (PyStr.strip line) <> "yes"
  end ->
  exec_shell_command command true (VStr "suggest") w
  = (Ret (125, EmptyString, "Command not approved by user"),
     with_stdin (tail (stdin w))
       (with_trace
          (EvPrompt ("Execute command: " +:+ command +:+ " [y/N]: ")) w)).
Proof.
  intros Hni Hno. rewrite exec_shell_command_gated by done.
  unfold mbind at 1, M_bind. rewrite is_noninteractive_false by done.
  unfold mbind, M_bind. rewrite approve_action_interactive by done.
  destruct w as [env cfg exe ud here f ue [|line rest] ch n tr]; cbn in *;
    [done |].
  destruct Hno as [H1 H2]. unfold says_yes.
  by rewrite !bool_decide_eq_false_2.
Qed.

Lemma exec_shell_command_declined_witness :
  (exec_shell_command "ls" true (VStr "suggest") Sample.interactive).1
  = Ret (125, EmptyString, "Command not approved by user").
Proof.
  rewrite (exec_shell_command_declined "ls" Sample.interactive).
  - reflexivity.
  - vm_compute. discriminate.
  - vm_compute. split; discriminate.
Defined.

End gate.


(** ** The process runner *)

Section runner.

Implicit Types (w : world) (argv : list string).

Lemma as_argv_strs argv : as_argv (VStr <$> argv) = Ret argv.
Proof. induction argv as [|a l IH]; [done |]. cbn. by rewrite IH. Qed.

(** C6, as amended. When the timeout elapses before the child exits,
    [run_subprocess] kills the child and reads its pipes to their end.
    Once every process that holds them has closed them, and when what
    they carried decodes as text, it returns status 124 with the output
    captured; the error text returned is the one captured, or
    'Timeout expired' when none was.  When the output does not decode,
    the error of the decoding is raised instead; while some process keeps
    a pipe open, the call does not return. *)
Theorem run_subprocess_timeout argv input t w p :
  child w argv input = Runs p ->
  pending t (exit_after p) = true ->
  let r := run_subprocess (VStr <$> argv) input (Some t) w in
  new_events w r.2 = [EvSpawn argv input; EvKill]
  /\ r.1 = match killed p t with
           | None => Hang
           | Some e =>
               match captured e with
               | Captured out err =>
                   Ret (124, out,
                        if bool_decide (err = EmptyString)
                        then "Timeout expired" else err)
               | Failed x => Raise x
               end
           end.
Proof.
  intros Hchild Hexp r. subst r.
  rewrite (run_subprocess_runs _ argv _ _ _ p) by (done || apply as_argv_strs).
  cbn zeta. unfold timed_out. rewrite Hexp, orb_true_r.
  destruct (killed p t) as [e|]; cbn [outcome_of fst snd].
  - split; [apply new_events_app; cbn; by rewrite <- app_assoc |].
    destruct (captured e) as [out err|x]; [|done]. by destruct err.
  - split; [|done]. apply new_events_app. cbn. by rewrite <- app_assoc.
Qed.

Lemma run_subprocess_timeout_witness :
  (run_subprocess [VStr "sleep"; VStr "60"] None (Some 5) Sample.slow).1
  = Ret (124, "partial", "Timeout expired").
Proof.
  apply (run_subprocess_timeout ["sleep"; "60"] None 5 Sample.slow _ eq_refl).
  reflexivity.
Defined.

(** C6 as first stated fails.  A child that never exits is killed when
    the timeout has elapsed; but what it has written is not text, the
    second [communicate()] raises, and no status is returned.  And where
    a descendant of the child keeps a pipe open for ever, the second
    [communicate()] never returns. *)
Lemma run_subprocess_timeout_counterexample :
  let argv := ["cat"; "/dev/urandom"] in
  let r := run_subprocess (VStr <$> argv) None (Some 5) Sample.noisy in
  let r' := run_subprocess [VStr "daemon"] None (Some 5) Sample.haunted in
  ((exists p, child Sample.noisy argv None = Runs p /\ exit_after p = None)
   /\ new_events Sample.noisy r.2 = [EvSpawn argv None; EvKill]
   /\ r.1 = Raise (Exn UnicodeDecodeError
                     "'utf-8' codec can't decode byte 0xff in position 0: invalid start byte")
   /\ forall out err, r.1 <> Ret (124, out, err))
  /\ ((exists p, child Sample.haunted ["daemon"] None = Runs p
                 /\ exit_after p = None)
      /\ new_events Sample.haunted r'.2 = [EvSpawn ["daemon"] None; EvKill]
      /\ r'.1 = Hang).
Proof.
  cbn zeta. split; (split; [by eexists |]); by repeat split.
Qed.

End runner.


(** ** Effects of the helpers *)

Section effects.

Implicit Types (w : world).

Lemma bind_ret_inv {A B} (m : M A) (f : A -> M B) w b w' :
  (m ≫= f) w = (Ret b, w') ->
  exists a w1, m w = (Ret a, w1) /\ f a w1 = (Ret b, w').
Proof.
  unfold mbind, M_bind. destruct (m w) as [[a| |] w1]; [eauto | done..].
Qed.

Lemma which_loop_world dirs cmd w : (which_loop dirs cmd w).2 = w.
Proof.
  induction dirs as [|d dirs IH]; [done |].
  cbn [which_loop]. unfold os_path_join, mbind, M_bind.
  destruct cmd; try done. msimpl.
  destruct (executable w _); [done | apply IH].
Qed.

Lemma which_world cmd w : (which cmd w).2 = w.
Proof. unfold which, getenv_str. msimpl. apply which_loop_world. Qed.

Lemma which_eq cmd w : which cmd w = ((which cmd w).1, w).
Proof. rewrite <- (which_world cmd w) at 3. by destruct (which cmd w). Qed.

Lemma read_files_loop_ok paths combined log_parts w :
  exists c l, read_files_loop paths combined log_parts w = (Ret (c, l), w).
Proof.
  revert combined log_parts.
  induction paths as [|p paths IH]; intros combined log_parts; [by eauto |].
  cbn [read_files_loop]. unfold mbind at 1, M_bind, try_except, read_text.
  unfold mbind at 1, M_bind.
  destruct (fs w !! p) as [[s|e]|]; msimpl.
  - apply IH.
  - cbn [find_handler]. destruct (issubclass _ _); msimpl; apply IH.
  - cbn. apply IH.
Qed.

Lemma read_files_ok paths w :
  exists context file_log, read_files paths w = (Ret (context, file_log), w).
Proof.
  unfold read_files, mbind, M_bind.
  destruct (read_files_loop_ok paths [] [] w) as (c & l & ->).
  msimpl. eauto.
Qed.

Lemma dict_get_ret d k dflt w a w1 :
  dict_get d k dflt w = (Ret a, w1) ->
  w1 = w /\ exists l, d = VDict l /\ a = default dflt (Py.assoc k l).
Proof. destruct d; try done. intros [= <- <-]. eauto. Qed.


Lemma or_else_ret a k w v w1 :
  or_else a k w = (Ret v, w1) ->
  (Py.truthy a = true /\ v = a /\ w1 = w)
  \/ (Py.truthy a = false /\ k w = (Ret v, w1)).
Proof.
  unfold or_else. destruct (Py.truthy a); [|by right].
  intros [= <- <-]. by left.
Qed.

Lemma or_dict v b :
  Py.or_ v (VDict []) = VDict b ->
  v = VDict b \/ (Py.truthy v = false /\ b = []).
Proof.
  unfold Py.or_. destruct (Py.truthy v) eqn:E; [by left |].
  intros [= <-]. by right.
Qed.

(** The table read by [__init__] holds the entries [backend.<name>.*]. *)
Lemma table_entry cfg name b t key :
  Py.or_ (default VNone (Py.assoc "backend" cfg)) (VDict []) = VDict b ->
  Py.or_ (default VNone (Py.assoc name b)) (VDict []) = VDict t ->
  default VNone (Py.assoc key t) = config_entry cfg name key.
Proof.
  unfold config_entry.
  intros [Hb|[Hb ->]]%or_dict [Ht|[Ht ->]]%or_dict.
  - destruct (Py.assoc "backend" cfg) as [v|]; cbn in Hb; [|done]. subst v.
    destruct (Py.assoc name b) as [v|]; cbn in Ht; [|done]. by subst v.
  - destruct (Py.assoc "backend" cfg) as [v|]; cbn in Hb; [|done]. subst v.
    destruct (Py.assoc name b) as [v|]; cbn in Ht; [|done].
    destruct v as [| | | | |[|]]; by cbn in *.
  - destruct (Py.assoc "backend" cfg) as [v|]; cbn in *; [|done].
    destruct v as [| | | | |[|]]; by cbn in *.
  - destruct (Py.assoc "backend" cfg) as [v|]; cbn in *; [|done].
    destruct v as [| | | | |[|]]; by cbn in *.
Qed.

Lemma getenv_default_ret name dflt w v w1 :
  getenv_default name dflt w = (Ret v, w1) ->
  w1 = w /\ v = match environ w !! name with Some s => VStr s | None => dflt end.
Proof. by intros [= <- <-]. Qed.

Lemma codex_init_inv model mode w self w' :
  CodexBackend.__init__ model mode w = (Ret self, w') ->
  w' = w
  /\ CodexBackend.model self
     = first_truthy [Py.of_opt (environ w !! "PYCODEX_CODEX_MODEL");
                     Py.of_opt model;
                     config_entry (config w) "codex" "model"]
         (VStr "gpt-5-codex")
  /\ CodexBackend.approval_mode self
     = match environ w !! "PYCODEX_APPROVAL" with
       | Some s => VStr s
       | None => first_truthy [VStr mode;
                               config_entry (config w) "codex" "approval_mode"]
                   (VStr "suggest")
       end
  /\ CodexBackend.base_cmd self
     = match environ w !! "PYCODEX_CODEX_CLI" with
       | Some s => VStr s
       | None => first_truthy [config_entry (config w) "codex" "cli"]
                   (VStr "codex")
       end
  /\ exists found,
       which (CodexBackend.base_cmd self) w = (Ret found, w)
       /\ CodexBackend._available self = bool_decide (is_Some found).
Proof.
  unfold CodexBackend.__init__. intros H.
  apply bind_ret_inv in H as (cfg & wa & [= <- <-] & H).
  apply bind_ret_inv in H as (backend & wb & Hb & H).
  apply dict_get_ret in Hb as [-> (l & [= <-] & ->)].
  apply bind_ret_inv in H as (codex & wc & Hc & H).
  apply dict_get_ret in Hc as [-> (b & Hb & ->)].
  apply bind_ret_inv in H as (env_model & wd & [= <- <-] & H).
  apply bind_ret_inv in H as (self_model & we & Hmodel & H).
  apply bind_ret_inv in H as (dflt_mode & wf & Hdflt & H).
  apply bind_ret_inv in H as (self_mode & wg & Hmode & H).
  apply getenv_default_ret in Hmode as [-> ->].
  apply bind_ret_inv in H as (cli & wh & Hcli & H).
  apply dict_get_ret in Hcli as [-> (t & Ht & ->)].
  apply bind_ret_inv in H as (self_cmd & wi & Hcmd & H).
  apply getenv_default_ret in Hcmd as [-> ->].
  apply bind_ret_inv in H as (files_arg & wj & [-> _]%dict_get_ret & H).
  apply bind_ret_inv in H as (ufa & wk & [-> _]%getenv_default_ret & H).
  apply bind_ret_inv in H as (split & wl & [-> _]%dict_get_ret & H).
  apply bind_ret_inv in H as (se & wm & [-> _]%getenv_default_ret & H).
  apply bind_ret_inv in H as (found & wn & Hfound & [= <- <-]).
  pose proof (table_entry (config w) "codex" b t) as Hentry.
  specialize (fun key => Hentry key Hb Ht).
  rewrite which_eq in Hfound. injection Hfound as Hfound <-.
  assert (we = w /\ self_model = first_truthy
            [Py.of_opt (environ w !! "PYCODEX_CODEX_MODEL"); Py.of_opt model;
             config_entry (config w) "codex" "model"] (VStr "gpt-5-codex"))
    as [-> ->].
  { cbn [first_truthy].
    apply or_else_ret in Hmodel as [(-> & -> & ->)|[-> Hmodel]]; [done |].
    apply or_else_ret in Hmodel as [(-> & -> & ->)|[-> Hmodel]]; [done |].
    apply bind_ret_inv in Hmodel as (m & w4 & Hm & [= <- <-]).
    apply dict_get_ret in Hm as [-> (t' & Ht' & ->)].
    rewrite Ht in Ht'. injection Ht' as <-. by rewrite <- Hentry. }
  assert (wf = w /\ dflt_mode = first_truthy
            [VStr mode; config_entry (config w) "codex" "approval_mode"]
            (VStr "suggest")) as [-> ->].
  { cbn [first_truthy].
    apply or_else_ret in Hdflt as [(-> & -> & ->)|[-> Hdflt]]; [done |].
    apply bind_ret_inv in Hdflt as (m & w4 & Hm & [= <- <-]).
    apply dict_get_ret in Hm as [-> (t' & Ht' & ->)].
    rewrite Ht in Ht'. injection Ht' as <-. by rewrite <- Hentry. }
  cbn [CodexBackend.model CodexBackend.approval_mode CodexBackend.base_cmd
       CodexBackend._available].
  repeat split; try done.
  - cbn [first_truthy]. by rewrite <- Hentry.
  - exists found. split; [|done]. by rewrite which_eq, Hfound.
Qed.


Lemma gemini_init_inv model mode w self w' :
  GeminiBackend.__init__ model mode w = (Ret self, w') ->
  w' = w
  /\ GeminiBackend.model self = model
  /\ GeminiBackend.approval_mode self = mode
  /\ GeminiBackend.base_cmd self
     = default "gemini" (environ w !! "PYCODEX_GEMINI_CLI")
  /\ exists found,
       which (VStr (GeminiBackend.base_cmd self)) w = (Ret found, w)
       /\ GeminiBackend._available self = bool_decide (is_Some found).
Proof.
  unfold GeminiBackend.__init__. intros H.
  apply bind_ret_inv in H as (cmd & wa & [= <- <-] & H).
  apply bind_ret_inv in H as (found & wb & Hfound & [= <- <-]).
  rewrite which_eq in Hfound. injection Hfound as Hfound <-.
  cbn [GeminiBackend.model GeminiBackend.approval_mode GeminiBackend.base_cmd
       GeminiBackend._available].
  repeat split; try done.
  exists found. split; [|done]. by rewrite which_eq, Hfound.
Qed.

End effects.

(** ** The backend adapters *)

Section adapters.

Implicit Types (w : world) (self : PyCodex.t).

(** An adapter constructed where its binary could not be resolved has
    recorded that it is not available. *)
Lemma codex_constructed_unavailable w0 b :
  constructed_in w0 (PyCodex.Codex b) ->
  unresolvable w0 (PyCodex.Codex b) ->
  CodexBackend._available b = false.
Proof.
  intros (model & mode & w' & H) Hun.
  apply codex_init_inv in H as (_ & _ & _ & _ & found & Hfound & ->).
  unfold unresolvable in Hun. cbn in Hun. rewrite Hfound in Hun.
  by injection Hun as ->.
Qed.

Lemma gemini_constructed_unavailable w0 b :
  constructed_in w0 (PyCodex.Gemini b) ->
  unresolvable w0 (PyCodex.Gemini b) ->
  GeminiBackend._available b = false.
Proof.
  intros (model & mode & w' & H) Hun.
  apply gemini_init_inv in H as (_ & _ & _ & _ & found & Hfound & ->).
  unfold unresolvable in Hun. cbn in Hun. rewrite Hfound in Hun.
  by injection Hun as ->.
Qed.

Lemma codex_ensure_unavailable b w :
  CodexBackend._available b = false ->
  (which (CodexBackend.base_cmd b) w).1 = Ret None ->
  CodexBackend._ensure_available b w
  = (Raise (Exn BackendNotFoundError (CodexBackend.not_found_message b)), w).
Proof.
  intros Hav Hw. unfold CodexBackend._ensure_available. rewrite Hav.
  unfold mbind, M_bind. by rewrite which_eq, Hw.
Qed.

Lemma gemini_ensure_unavailable b w :
  GeminiBackend._available b = false ->
  (which (VStr (GeminiBackend.base_cmd b)) w).1 = Ret None ->
  GeminiBackend._ensure_available b w
  = (Raise (Exn BackendNotFoundError (GeminiBackend.not_found_message b)), w).
Proof.
  intros Hav Hw. unfold GeminiBackend._ensure_available. rewrite Hav.
  unfold mbind, M_bind. by rewrite which_eq, Hw.
Qed.

Lemma codex_run_exec_unavailable b prompt files w :
  CodexBackend._available b = false ->
  (which (CodexBackend.base_cmd b) w).1 = Ret None ->
  CodexBackend._run_exec b prompt files w
  = (Raise (Exn BackendNotFoundError (CodexBackend.not_found_message b)), w).
Proof.
  intros Hav Hw. unfold CodexBackend._run_exec. unfold mbind at 1, M_bind.
  by rewrite codex_ensure_unavailable.
Qed.

Lemma gemini_invoke_unavailable b sub payload files w :
  GeminiBackend._available b = false ->
  (which (VStr (GeminiBackend.base_cmd b)) w).1 = Ret None ->
  GeminiBackend._invoke b sub payload files w
  = (Raise (Exn BackendNotFoundError (GeminiBackend.not_found_message b)), w).
Proof.
  intros Hav Hw. unfold GeminiBackend._invoke. unfold mbind at 1, M_bind.
  by rewrite gemini_ensure_unavailable.
Qed.

(** C1, as amended. For an adapter (codex or gemini) whose binary could
    not be resolved when it was constructed and cannot be resolved at the
    call, generate, explain and edit raise [BackendNotFoundError] with a
    message naming the binary, and leave the world as it was: no child is
    spawned.  [exec_command] makes no availability check: it is the
    approval gate applied to the adapter's approval mode. *)
Theorem unavailable_backend_raises self w0 w :
  constructed_in w0 self ->
  unresolvable w0 self ->
  unresolvable w self ->
  let not_found :=
    (Raise (Exn BackendNotFoundError (backend_not_found_message self)), w) in
  (forall prompt files, PyCodex.generate self prompt files w = not_found)
  /\ (forall code, PyCodex.explain self code w = not_found)
  /\ (forall code instructions,
         PyCodex.edit self code instructions w = not_found)
  /\ (forall command safe,
         PyCodex.exec_command self command safe
         = ('(status, out, err) ←
              exec_shell_command command safe (backend_approval_mode self);
            mret (mkCommandResult out err status))).
Proof.
  intros Hc H0 Hw. destruct self as [b|b]; cbn zeta.
  - pose proof (codex_constructed_unavailable _ _ Hc H0) as Hav.
    repeat split; intros; try done;
      by apply codex_run_exec_unavailable.
  - pose proof (gemini_constructed_unavailable _ _ Hc H0) as Hav.
    repeat split; intros; try done;
      by apply gemini_invoke_unavailable.
Qed.

Lemma unavailable_backend_raises_witness :
  PyCodex.generate (PyCodex.Codex Sample.codex_missing) "write f" None
    Sample.interactive
  = (Raise (Exn BackendNotFoundError
              "Codex CLI not found: 'codex'. Set PYCODEX_CODEX_CLI or install the CLI."),
     Sample.interactive).
Proof.
  apply (unavailable_backend_raises (PyCodex.Codex Sample.codex_missing)
           Sample.interactive Sample.interactive).
  - exists (Some "gpt-5-codex"), "suggest", Sample.interactive. reflexivity.
  - reflexivity.
  - reflexivity.
Defined.

(** C1 as first stated fails for [exec_command]: on the adapter whose
    binary is missing, with [safe] false, the command is run by bash and
    its result is returned. *)
Lemma unavailable_backend_exec_command_counterexample :
  constructed_in Sample.interactive (PyCodex.Codex Sample.codex_missing)
  /\ unresolvable Sample.interactive (PyCodex.Codex Sample.codex_missing)
  /\ let r := PyCodex.exec_command (PyCodex.Codex Sample.codex_missing)
                "ls" false Sample.interactive in
     r.1 = Ret (mkCommandResult "done" EmptyString 0)
     /\ new_events Sample.interactive r.2 = [EvSpawn ["bash"; "-lc"; "ls"] None].
Proof.
  split; [|split; [reflexivity | split; reflexivity]].
  exists (Some "gpt-5-codex"), "suggest", Sample.interactive. reflexivity.
Qed.

End adapters.


(** ** Where the configuration comes from *)

Section configuration.

Implicit Types (w : world).

(** C9, as amended. The codex adapter takes its binary from the
    environment variable PYCODEX_CODEX_CLI, else from the configuration
    entry backend.codex.cli, else 'codex'; its model from a non-empty
    PYCODEX_CODEX_MODEL, else from a non-empty constructor argument, else
    from the entry backend.codex.model, else 'gpt-5-codex'; its approval
    mode from PYCODEX_APPROVAL, else from a non-empty constructor argument,
    else from the entry backend.codex.approval_mode, else 'suggest'.  So a
    model or approval mode set only in the configuration file is the one
    used when the constructor is given none.  The gemini adapter takes its
    binary from PYCODEX_GEMINI_CLI, else 'gemini', and its model and
    approval mode from the constructor arguments. *)
Theorem configuration_precedence model mode w :
  (forall self w',
      CodexBackend.__init__ model mode w = (Ret self, w') ->
      let entry := config_entry (config w) "codex" in
      CodexBackend.base_cmd self
      = match environ w !! "PYCODEX_CODEX_CLI" with
        | Some s => VStr s
        | None => first_truthy [entry "cli"] (VStr "codex")
        end
      /\ CodexBackend.model self
         = first_truthy [Py.of_opt (environ w !! "PYCODEX_CODEX_MODEL");
                         Py.of_opt model; entry "model"] (VStr "gpt-5-codex")
      /\ CodexBackend.approval_mode self
         = match environ w !! "PYCODEX_APPROVAL" with
           | Some s => VStr s
           | None =>
               first_truthy [VStr mode; entry "approval_mode"] (VStr "suggest")
           end
      /\ (environ w !! "PYCODEX_CODEX_MODEL" = None ->
          Py.truthy (Py.of_opt model) = false ->
          Py.truthy (entry "model") = true ->
          CodexBackend.model self = entry "model")
      /\ (environ w !! "PYCODEX_APPROVAL" = None ->
          mode = EmptyString ->
          Py.truthy (entry "approval_mode") = true ->
          CodexBackend.approval_mode self = entry "approval_mode"))
  /\ (forall self w',
         GeminiBackend.__init__ model mode w = (Ret self, w') ->
         GeminiBackend.base_cmd self
         = default "gemini" (environ w !! "PYCODEX_GEMINI_CLI")
         /\ GeminiBackend.model self = model
         /\ GeminiBackend.approval_mode self = mode).
Proof.
  split; intros self w' H.
  - apply codex_init_inv in H as (_ & Hmodel & Hmode & Hcmd & _).
    cbn zeta. repeat split; try done.
    + intros Henv Harg Hcfg. rewrite Hmodel, Henv. cbn [first_truthy Py.of_opt].
      cbn [Py.truthy]. by rewrite Harg, Hcfg.
    + intros Henv -> Hcfg. rewrite Hmode, Henv. cbn [first_truthy].
      cbn [Py.truthy PyStr.truthy]. by rewrite Hcfg.
  - by apply gemini_init_inv in H as (_ & ? & ? & ? & _).
Qed.

Lemma configuration_precedence_witness :
  CodexBackend.__init__ None EmptyString Sample.configured
  = (Ret Sample.codex_from_config, Sample.configured)
  /\ CodexBackend.model Sample.codex_from_config
     = config_entry (config Sample.configured) "codex" "model"
  /\ CodexBackend.approval_mode Sample.codex_from_config
     = config_entry (config Sample.configured) "codex" "approval_mode".
Proof.
  destruct (configuration_precedence None EmptyString Sample.configured)
    as [H _].
  destruct (H Sample.codex_from_config Sample.configured)
    as (_ & _ & _ & Hmodel & Hmode); [reflexivity |].
  split; [reflexivity |].
  split; [apply Hmodel | apply Hmode]; reflexivity.
Defined.

(** C9 as first stated fails: with the model and the approval mode set
    only in the configuration file and no environment variable, the codex
    adapter made by the facade (or by its constructor's defaults) uses
    'gpt-5-codex' and 'suggest', and the gemini adapter 'gemini-1'. *)
Lemma configuration_precedence_counterexample :
  environ Sample.configured = ∅
  /\ config_entry (config Sample.configured) "codex" "model" = VStr "o3"
  /\ config_entry (config Sample.configured) "codex" "approval_mode"
     = VStr "full-auto"
  /\ config_entry (config Sample.configured) "gemini" "model"
     = VStr "gemini-2"
  /\ (exists b,
        (PyCodex.__init__ "codex" None "suggest" Sample.configured).1
        = Ret (PyCodex.Codex b)
        /\ (CodexBackend.__init__ (Some "gpt-5-codex") "suggest"
              Sample.configured).1 = Ret b
        /\ CodexBackend.model b = VStr "gpt-5-codex"
        /\ CodexBackend.approval_mode b = VStr "suggest")
  /\ (exists b,
        (PyCodex.__init__ "gemini" None "suggest" Sample.configured).1
        = Ret (PyCodex.Gemini b)
        /\ GeminiBackend.model b = Some "gemini-1").
Proof.
  repeat split; try reflexivity; eexists; repeat split; reflexivity.
Qed.

End configuration.


(** ** The exit status of the tool *)

Section exit_status.

Implicit Types (w : world).

Lemma new_events_same w : new_events w w = [].
Proof. unfold new_events. apply drop_all. Qed.

Lemma gemini_ensure_world b w : (GeminiBackend._ensure_available b w).2 = w.
Proof.
  unfold GeminiBackend._ensure_available. destruct (GeminiBackend._available b);
    [done |].
  unfold mbind, M_bind. rewrite which_eq.
  by destruct (which _ w).1 as [[?|]| |].
Qed.

(** The message of a failed run holds the status, and the error text of
    the tool, or its output when there is no error text. *)
Lemma failed_message_contents (head : string) (status : Z) out err :
  let msg := head +:+ pretty status +:+ "): "
             +:+ PyStr.or_ (PyStr.strip err) (PyStr.strip out) in
  PyStr.contains (pretty status) msg = true
  /\ PyStr.contains (PyStr.strip err) msg = true
  /\ (err = EmptyString -> PyStr.contains (PyStr.strip out) msg = true).
Proof.
  cbn zeta. split; [apply contains_append |].
  assert (forall t, PyStr.contains t
            (head +:+ pretty status +:+ "): " +:+ t) = true) as Hlast.
  { intros t.
    replace (head +:+ pretty status +:+ "): " +:+ t)
      with ((head +:+ pretty status +:+ "): ") +:+ t +:+ EmptyString)
      by (by rewrite append_empty_r, !append_assoc).
    apply contains_append. }
  split.
  - unfold PyStr.or_. destruct (PyStr.strip err) eqn:E; [|apply Hlast].
    cbn [PyStr.truthy]. apply contains_prefix. by destruct (_ +:+ _).
  - intros ->. apply Hlast.
Qed.

Lemma codex_ensure_world b w : (CodexBackend._ensure_available b w).2 = w.
Proof.
  unfold CodexBackend._ensure_available. destruct (CodexBackend._available b);
    [done |].
  unfold mbind, M_bind. rewrite which_eq.
  by destruct (which _ w).1 as [[?|]| |].
Qed.

Lemma dict_get_world d k dflt w : (dict_get d k dflt w).2 = w.
Proof. by destruct d. Qed.

(** The sandbox setting is looked up without any effect. *)
Lemma sandbox_lookup_world (env_sandbox : option string) w :
  (or_else (Py.of_opt env_sandbox)
     (cfg ← get_config;
      backend ← dict_get cfg "backend" VNone;
      codex ← dict_get (Py.or_ backend (VDict [])) "codex" (VDict []);
      dict_get codex "sandbox" VNone) w).2 = w.
Proof.
  unfold or_else. destruct (Py.truthy _); [done |].
  unfold get_config. unfold mbind at 1, M_bind. cbn beta iota.
  unfold mbind at 1, M_bind.
  pose proof (dict_get_world (VDict (config w)) "backend" VNone w) as H1.
  destruct (dict_get (VDict (config w)) "backend" VNone w) as [[backend|e|] w1];
    cbn [snd] in H1; subst w1; [|done..].
  unfold mbind at 1, M_bind.
  pose proof (dict_get_world (Py.or_ backend (VDict [])) "codex" (VDict []) w)
    as H2.
  destruct (dict_get (Py.or_ backend (VDict [])) "codex" (VDict []) w)
    as [[codex|e|] w1]; cbn [snd] in H2; subst w1; [|done..].
  apply dict_get_world.
Qed.

(** [try: os.unlink(path)  except Exception: pass] removes the file when
    it is there and its directory lets it go, and does nothing else. *)
Lemma unlink_quietly_spec path w :
  unlink_quietly path w
  = (Ret tt,
     if unlinks w path
     then with_fs (delete path (fs w)) (with_trace (EvUnlink path) w)
     else w).
Proof.
  unfold unlink_quietly, try_except, unlink, unlinks.
  destruct (fs w !! path) as [node|]; [|done].
  by destruct (unlink_error w path).
Qed.

(** Reading the last message, then removing its file. *)
Lemma read_last_message tmp o w :
  try_finally
    (present ← path_exists tmp;
     if present : bool then read_text tmp else mret o)
    (unlink_quietly tmp) w
  = (match fs w !! tmp with
     | None => Ret o
     | Some (Text t) => Ret t
     | Some (Unreadable e) => Raise e
     end, (unlink_quietly tmp w).2).
Proof.
  unfold try_finally, path_exists, read_text. msimpl.
  destruct (fs w !! tmp) as [[t|e]|] eqn:E; cbn; by rewrite ?E.
Qed.

(** A name that [try_names] settles on is borne by no file. *)
Lemma try_names_free tries dir pre suf f n file n' :
  try_names tries dir pre suf f n = inr (file, n') -> f !! file = None.
Proof.
  assert (forall m, try_name dir pre suf f m = inr (file, n') ->
                    f !! file = None) as Hone.
  { intros m. unfold try_name.
    destruct (f !! posix_join dir _) eqn:E; [done |]. by intros [= <- <-]. }
  revert n. induction tries as [tries IH|tries IH|]; intros n;
    cbn [try_names].
  - destruct (try_name dir pre suf f n) as [m|[file' m]] eqn:E1;
      [|intros [= -> ->]; by eapply Hone].
    destruct (try_names tries dir pre suf f m) as [m'|[file' m']] eqn:E2;
      [apply IH | intros [= -> ->]; by eapply IH].
  - destruct (try_names tries dir pre suf f n) as [m|[file' m]] eqn:E1;
      [apply IH | intros [= -> ->]; by eapply IH].
  - apply Hone.
Qed.

(** [NamedTemporaryFile] raises and leaves everything as it was, or makes
    an empty file under a name that no file bore. *)
Lemma NamedTemporaryFile_cases pre suf w :
  (exists e, NamedTemporaryFile pre suf w = (Raise e, w))
  \/ exists file n,
       fs w !! file = None
       /\ NamedTemporaryFile pre suf w
          = (Ret file,
             with_trace (EvCreate file)
               (with_fs (<[file := Text EmptyString]> (fs w))
                  (with_tmp_count n w))).
Proof.
  unfold NamedTemporaryFile, gettempdir, mbind, M_bind.
  destruct (find _ _) as [dir|]; [|by eauto].
  unfold mkstemp_inner.
  destruct (try_names _ _ _ _ _ _) as [m|[file m]] eqn:E; [by eauto |].
  right. exists file, m. split; [|done]. by eapply try_names_free.
Qed.

(** C7 at a failing input. The codex tool exits with status 2 and
    'bad flag' on its standard error, having left bytes that are not UTF-8
    in the file for its last message: [generate] reads that file before it
    looks at the status, and the error of the read is what is raised, not
    an [ExecutionError]. *)
Theorem codex_generate_unreadable_last_message :
  let w := Sample.garbled in
  let r := CodexBackend.generate Sample.codex_installed "write f" None w in
  (exists argv input p e,
      EvSpawn argv input ∈ new_events w r.2
      /\ child w argv input = Runs p
      /\ undisturbed p = Some e
      /\ returncode e = 2
      /\ captured e = Captured EmptyString "bad flag")
  /\ r.1 = Raise (Exn UnicodeDecodeError
                    "'utf-8' codec can't decode byte 0xff in position 0: invalid start byte")
  /\ forall msg, r.1 <> Raise (Exn ExecutionError msg).
Proof.
  cbn zeta. split; [|split; [reflexivity | intros msg; by vm_compute]].
  eexists _, _, _, _. split; [|by repeat split].
  vm_compute. apply list_elem_of_further, list_elem_of_here.
Qed.

End exit_status.

(** ** The scenarios of the specification, run *)

Section scenarios.

(** A tool that exits 2 with 'bad flag' on its standard error. *)
Example generate_bad_flag :
  (CodexBackend.generate Sample.codex_installed "write f" None
     Sample.failing).1
  = Raise (Exn ExecutionError "Codex CLI failed (2): bad flag")
  /\ (GeminiBackend.generate Sample.gemini_installed "write f" None
        Sample.failing).1
     = Raise (Exn ExecutionError "Gemini CLI failed (2): bad flag").
Proof. split; reflexivity. Qed.

(** An output without a fence is all text. *)
Example parse_no_fence :
  parse_code_and_text "  no fence here " = Ret (EmptyString, "no fence here").
Proof. reflexivity. Qed.

(** A timeout of 0 always expires, also for a child that exits at
    once. *)
Example timeout_zero :
  (run_subprocess [VStr "true"] None (Some 0) Sample.interactive).1
  = Ret (124, EmptyString, "Timeout expired").
Proof. reflexivity. Qed.

(** A child that has exited with status 0 within the timeout is killed
    all the same, and 124 is returned, when a descendant still holds its
    pipes; with a timeout that the descendant does not outlast, the status
    of the child is returned. *)
Example descendant_holds_pipe :
  (run_subprocess [VStr "bash"; VStr "-c"; VStr "sleep 3 &"] None (Some 1)
     Sample.forking).1
  = Ret (124, EmptyString, "Timeout expired")
  /\ (run_subprocess [VStr "bash"; VStr "-c"; VStr "sleep 3 &"] None (Some 3)
        Sample.forking).1
     = Ret (0, EmptyString, EmptyString).
Proof. split; reflexivity. Qed.

(** A command run by the gate inherits the standard input of the
    program and may read from it. *)
Example child_reads_input :
  stdin (exec_shell_command "read x" false (VStr "suggest")
           Sample.typed_ahead).2
  = ["second"].
Proof. reflexivity. Qed.

(** The temporary file goes to the directory named by TMPDIR, made
    absolute. *)
Example tempdir_from_environment :
  (NamedTemporaryFile "pycodex_last_msg_" ".txt" Sample.relocated).1
  = Ret "/home/dev/scratch/pycodex_last_msg_0.txt".
Proof. reflexivity. Qed.

(** Where the temporary file cannot be removed, the failure is passed
    over and the file stays. *)
Example temporary_file_stays :
  let r := CodexBackend.generate Sample.codex_installed "write f" None
             Sample.sticky in
  r.1 = Ret (mkCodexResult EmptyString EmptyString
               ("cmd=codex exec --model gpt-5-codex --color never --skip-git-repo-check --output-last-message /tmp/pycodex_last_msg_0.txt"
                +:+ PyStr.newline))
  /\ fs r.2 !! "/tmp/pycodex_last_msg_0.txt" = Some (Text EmptyString).
Proof. split; reflexivity. Qed.

(** [safe] true, 'suggest', interactive, answer n: status 125. *)
Example exec_command_rejected :
  (CodexBackend.exec_command Sample.codex_missing "ls" true
     Sample.interactive).1
  = Ret (mkCommandResult EmptyString "Command not approved by user" 125).
Proof. reflexivity. Qed.

End scenarios.


(** * Further properties of the code *)

(** ** The output parser, continued *)

Section parser_more.

Implicit Types (output code text lang s t u v : string) (c : ascii).

(** The parser answers every output, and what it answers is stripped:
    neither the code nor the text begins or ends with white space. *)
Theorem parse_code_and_text_stripped output :
  exists code text,
    parse_code_and_text output = Ret (code, text)
    /\ PyStr.strip code = code /\ PyStr.strip text = text.
Proof.
  destruct (parse_code_and_text_total output) as (code & text & H).
  exists code, text. split; [done |].
  unfold parse_code_and_text in H.
  match type of H with
  | (?inner ≫= _) = _ => destruct inner as [[c t]| |]
  end; cbn in H; [|done..].
  injection H as <- <-. by rewrite !strip_idemp.
Qed.

(** A code that is not empty comes from a fenced block: the output holds
    the fence and splits into three segments or more. *)
Theorem parse_code_needs_fenced_block output code text :
  parse_code_and_text output = Ret (code, text) ->
  code <> EmptyString ->
  PyStr.contains fence output = true
  /\ (3 <= length (PyStr.split fence output))%nat.
Proof.
  intros H Hcode.
  destruct (decide (length (PyStr.split fence output) < 3)%nat) as [Hlt|Hge].
  { exfalso. unfold parse_code_and_text in H.
    apply Nat.leb_gt in Hlt. rewrite Hlt in H.
    destruct (PyStr.contains fence output); cbn in H; by injection H as <- <-. }
  split; [|lia]. apply split_length_contains. lia.
Qed.

Lemma parse_code_needs_fenced_block_witness :
  PyStr.contains fence Sample.fenced = true
  /\ (3 <= length (PyStr.split fence Sample.fenced))%nat.
Proof.
  apply (parse_code_needs_fenced_block Sample.fenced "print(1)"
           ("pre" +:+ PyStr.newline +:+ PyStr.newline +:+ "post"));
    [reflexivity | discriminate].
Defined.

Lemma prefix_fence_line u v :
  String.prefix fence (u +:+ PyStr.newline +:+ v) = String.prefix fence u.
Proof.
  unfold fence, PyStr.newline.
  destruct u as [|a [|b [|c u]]]; rewrite ?append_cons, ?append_nil;
    change (String (ascii_of_nat 10) EmptyString +:+ v)
      with (String (ascii_of_nat 10) v).
  - reflexivity.
  - rewrite !(prefix_cons _ _ a). f_equal.
  - rewrite !(prefix_cons _ _ a), !(prefix_cons _ _ b). do 2 f_equal.
  - rewrite !(prefix_cons _ _ a), !(prefix_cons _ _ b), !(prefix_cons _ _ c).
    do 3 f_equal. transitivity true; [by destruct (_ +:+ _) | by destruct u].
Qed.

(** Two strings without a fence, a newline between them: no fence. *)
Lemma contains_fence_lines u v :
  PyStr.contains fence u = false ->
  PyStr.contains fence v = false ->
  PyStr.contains fence (u +:+ PyStr.newline +:+ v) = false.
Proof.
  intros Hu Hv. induction u as [|a u IH].
  - rewrite append_nil. change (PyStr.newline +:+ v)
      with (String (ascii_of_nat 10) v).
    rewrite contains_unfold, Hv. unfold fence. by rewrite prefix_cons.
  - rewrite contains_unfold in Hu. apply orb_false_iff in Hu as [Hp Hu].
    rewrite contains_unfold, prefix_fence_line, Hp.
    rewrite append_cons. by apply IH.
Qed.

Lemma contains_fence_newline_r u :
  PyStr.contains fence u = false ->
  PyStr.contains fence (u +:+ PyStr.newline) = false.
Proof.
  intros Hu. rewrite <- (append_empty_r PyStr.newline).
  by apply contains_fence_lines.
Qed.

(** Splitting [body + fence] when the body ends a line and has no fence. *)
Lemma split_go_closing_fence cur body :
  PyStr.contains fence (body +:+ PyStr.newline) = false ->
  PyStr.split_go fence None 0 cur (body +:+ PyStr.newline +:+ fence)
  = [cur +:+ body +:+ PyStr.newline; EmptyString].
Proof.
  revert cur. induction body as [|a body IH]; intros cur H.
  - rewrite append_nil. by rewrite append_nil.
  - rewrite append_cons in H. rewrite contains_unfold in H.
    apply orb_false_iff in H as [Hp Hc].
    rewrite append_cons, split_go_cons.
    rewrite <- append_cons, prefix_fence_line.
    rewrite <- (append_empty_r PyStr.newline) in Hp.
    rewrite <- append_cons, prefix_fence_line in Hp. rewrite Hp.
    rewrite IH by done. by rewrite append_snoc.
Qed.


Lemma split_fenced body :
  PyStr.contains fence (body +:+ PyStr.newline) = false ->
  PyStr.split fence (fence +:+ body +:+ PyStr.newline +:+ fence)
  = [EmptyString; body +:+ PyStr.newline; EmptyString].
Proof.
  intros H. unfold PyStr.split.
  change (fence +:+ body +:+ PyStr.newline +:+ fence)
    with (String "`" (String "`" (String "`"
            (body +:+ PyStr.newline +:+ fence)))).
  rewrite split_go_cons.
  rewrite (prefix_append fence (body +:+ PyStr.newline +:+ fence)
           : String.prefix fence
               (String "`" (String "`" (String "`"
                  (body +:+ PyStr.newline +:+ fence)))) = true).
  change (PyStr.split_go fence (pred <$> None) (String.length fence - 1)
            EmptyString
            (String "`" (String "`" (body +:+ PyStr.newline +:+ fence))))
    with (PyStr.split_go fence None 0 EmptyString
            (body +:+ PyStr.newline +:+ fence)).
  by rewrite split_go_closing_fence.
Qed.

Lemma rstrip_newline_r s : PyStr.rstrip (s +:+ PyStr.newline) = PyStr.rstrip s.
Proof.
  induction s as [|c s IH]; [done |].
  by rewrite append_cons, !rstrip_cons, IH.
Qed.

Lemma lstrip_append s t :
  PyStr.lstrip s <> EmptyString -> PyStr.lstrip (s +:+ t) = PyStr.lstrip s +:+ t.
Proof.
  induction s as [|c s IH]; [done |].
  rewrite append_cons. cbn [PyStr.lstrip]. by destruct (PyStr.isspace c).
Qed.

Lemma lstrip_blank s t :
  PyStr.lstrip s = EmptyString -> PyStr.lstrip (s +:+ t) = PyStr.lstrip t.
Proof.
  induction s as [|c s IH]; [done |].
  rewrite append_cons. cbn [PyStr.lstrip]. by destruct (PyStr.isspace c).
Qed.

Lemma strip_newline_r s : PyStr.strip (s +:+ PyStr.newline) = PyStr.strip s.
Proof.
  unfold PyStr.strip.
  destruct (decide (PyStr.lstrip s = EmptyString)) as [H|H].
  - by rewrite lstrip_blank, H.
  - by rewrite lstrip_append, rstrip_newline_r.
Qed.

Lemma strip_newline_l s : PyStr.strip (PyStr.newline +:+ s) = PyStr.strip s.
Proof. reflexivity. Qed.

(** Round trip through a fenced block.  A code without a fence, put on
    its own lines between two fences, with or without a language tag on
    the opening line, parses back to that code stripped, and to an empty
    text; a tag that begins with '#' stays in the code. *)
Theorem parse_code_and_text_round_trip lang code :
  PyStr.contains PyStr.newline lang = false ->
  PyStr.contains fence lang = false ->
  PyStr.contains fence code = false ->
  parse_code_and_text
    (fence +:+ lang +:+ PyStr.newline +:+ code +:+ PyStr.newline +:+ fence)
  = Ret (PyStr.strip (if PyStr.startswith (PyStr.strip lang) "#"
                      then lang +:+ PyStr.newline +:+ code else code),
         EmptyString).
Proof.
  intros Hnl Hlang Hcode.
  pose proof (contains_fence_newline_r _
                (contains_fence_lines _ _ Hlang Hcode)) as Hbody.
  pose proof (split_fenced (lang +:+ PyStr.newline +:+ code) Hbody) as Hsplit.
  rewrite !append_assoc in Hsplit.
  pose proof (parse_unfold_fenced
                (fence +:+ lang +:+ PyStr.newline +:+ code +:+ PyStr.newline
                 +:+ fence) EmptyString
                (lang +:+ PyStr.newline +:+ code +:+ PyStr.newline)) as Hp.
  cbn zeta in Hp. rewrite Hsplit in Hp.
  rewrite Hp by (done || (cbn; lia)). clear Hp.
  rewrite code_of_body_lines by done.
  cbn [mbind mret res_bind res_ret]. f_equal. f_equal.
  case_bool_decide as Hblank; cbn [orb].
  - rewrite Hblank. cbn [PyStr.startswith String.prefix].
    unfold PyStr.strip at 1. rewrite lstrip_blank_prefix by done.
    apply (strip_newline_r (PyStr.newline +:+ code)).
  - destruct (PyStr.startswith _ _).
    + rewrite <- !append_assoc. by rewrite strip_newline_r.
    + apply strip_newline_r.
Qed.

Lemma parse_code_and_text_round_trip_witness :
  parse_code_and_text
    (fence +:+ "python" +:+ PyStr.newline +:+ "print(1)" +:+ PyStr.newline
     +:+ fence)
  = Ret ("print(1)", EmptyString).
Proof.
  apply (parse_code_and_text_round_trip "python" "print(1)"); reflexivity.
Defined.

End parser_more.

(** ** Reading files and finding binaries *)

Section files_and_path.

Implicit Types (w : world) (p cmd : string).

Lemma read_files_loop_spec paths combined log_parts w :
  read_files_loop paths combined log_parts w
  = (Ret (combined ++ concat (file_chunk w <$> paths),
          log_parts ++ (file_log_line w <$> paths)), w).
Proof.
  revert combined log_parts.
  induction paths as [|p paths IH]; intros combined log_parts.
  - cbn. by rewrite !app_nil_r.
  - cbn [read_files_loop]. unfold mbind at 1, M_bind, try_except, read_text.
    unfold mbind at 1, M_bind.
    rewrite !fmap_cons. cbn [concat].
    unfold file_chunk at 1, file_log_line at 1.
    destruct (fs w !! p) as [[s|e]|]; msimpl.
    + etrans; [apply IH |]. by rewrite <- !app_assoc.
    + cbn [find_handler]. destruct (issubclass _ _); msimpl;
        (etrans; [apply IH |]); by rewrite <- !app_assoc.
    + cbn [find_handler issubclass exn_cls]. cbn.
      etrans; [apply IH |]. by rewrite <- !app_assoc.
Qed.

Lemma read_files_spec paths w :
  read_files paths w
  = (Ret (PyStr.join EmptyString (concat (file_chunk w <$> paths)),
          PyStr.join PyStr.newline (file_log_line w <$> paths)), w).
Proof.
  unfold read_files, mbind, M_bind. by rewrite read_files_loop_spec.
Qed.


Lemma which_loop_spec dirs cmd w :
  which_loop dirs (VStr cmd) w
  = (Ret (head (filter (fun p => executable w p = true)
                  ((fun dir => posix_join dir cmd) <$> dirs))), w).
Proof.
  induction dirs as [|d dirs IH]; [done |].
  cbn [which_loop os_path_join]. msimpl. rewrite fmap_cons, filter_cons.
  destruct (executable w (posix_join d cmd)) eqn:E.
  - by rewrite decide_True.
  - by rewrite decide_False, IH.
Qed.

Lemma which_spec cmd w :
  which (VStr cmd) w
  = (Ret (head (filter (fun p => executable w p = true)
                  (which_candidates w cmd))), w).
Proof. unfold which, getenv_str. msimpl. apply which_loop_spec. Qed.

(** [which] returns the first candidate of the search path that is an
    executable file, and [None] exactly when no candidate is one. *)
Theorem which_first_executable cmd w :
  match (which (VStr cmd) w).1 with
  | Ret (Some p) =>
      exists before after,
        which_candidates w cmd = before ++ p :: after
        /\ executable w p = true
        /\ Forall (fun q => executable w q = false) before
  | Ret None => Forall (fun q => executable w q = false) (which_candidates w cmd)
  | _ => False
  end.
Proof.
  rewrite which_spec. cbn [fst].
  induction (which_candidates w cmd) as [|q l IH]; [by constructor |].
  rewrite filter_cons. destruct (executable w q) eqn:E.
  - rewrite decide_True by done. cbn. exists [], l. by repeat split.
  - rewrite decide_False by congruence.
    destruct (head (filter _ l)) as [p|].
    + destruct IH as (before & after & -> & Hp & Hb).
      exists (q :: before), after. repeat split; [done | by constructor].
    + by constructor.
Qed.

Lemma split_go_nonempty sep budget skip cur s :
  PyStr.split_go sep budget skip cur s <> [].
Proof.
  revert budget skip cur. induction s as [|c s IH]; intros budget skip cur;
    [done |].
  cbn [PyStr.split_go]. destruct skip; [|apply IH].
  destruct budget as [[|n]|]; [done | |]; destruct (String.prefix sep _);
    done || apply IH.
Qed.

(** A command that begins with '/' is looked up as it is, whatever the
    search path; so is any command when PATH is unset or empty. *)
Theorem which_absolute_or_no_path cmd w :
  PyStr.startswith cmd "/" = true
  \/ default EmptyString (environ w !! "PATH") = EmptyString ->
  which (VStr cmd) w
  = (Ret (if executable w cmd then Some cmd else None), w).
Proof.
  intros H. rewrite which_spec. unfold which_candidates.
  assert (Forall (fun q => q = cmd)
            ((fun dir => posix_join dir cmd)
               <$> PyStr.split ":" (default EmptyString (environ w !! "PATH"))))
    as Hall.
  { destruct H as [H|H].
    - apply Forall_fmap, Forall_forall. intros dir _. cbn.
      unfold posix_join. by rewrite H.
    - rewrite H. cbn. constructor; [|done]. unfold posix_join.
      by destruct (PyStr.startswith cmd "/"). }
  assert ((fun dir => posix_join dir cmd)
            <$> PyStr.split ":" (default EmptyString (environ w !! "PATH"))
          <> []) as Hne.
  { intros Hnil%fmap_nil_inv. by apply split_go_nonempty in Hnil. }
  destruct (_ <$> _) as [|q l]; [done |].
  apply Forall_cons in Hall as [-> Hall].
  rewrite filter_cons. destruct (executable w cmd) eqn:E.
  - by rewrite decide_True.
  - rewrite decide_False by congruence. f_equal. f_equal.
    clear Hne. induction l as [|q l IH]; [done |].
    apply Forall_cons in Hall as [-> Hall].
    rewrite filter_cons, decide_False by congruence. by apply IH.
Qed.

Lemma which_absolute_or_no_path_witness :
  which (VStr "/usr/bin/codex") Sample.interactive
  = (Ret None, Sample.interactive).
Proof.
  apply (which_absolute_or_no_path "/usr/bin/codex" Sample.interactive).
  left. reflexivity.
Defined.

End files_and_path.

(** ** The approval gate and the process runner, continued *)

Section gate_more.

Implicit Types (command : string) (w : world).

(** In 'auto-edit' mode with [safe] true the command is run at once, as
    in 'full-auto': nothing is asked and the gate reads no input (the
    lines gone from standard input are those the child has read). *)
Theorem exec_shell_command_auto_edit command w :
  let cmd := [VStr "bash"; VStr "-lc"; VStr command] in
  let w' := (exec_shell_command command true (VStr "auto-edit") w).2 in
  exec_shell_command command true (VStr "auto-edit") w
  = run_subprocess cmd None None w
  /\ stdin w' = unread (lines_taken w cmd None None) (stdin w)
  /\ existsb is_prompt (new_events w w') = false.
Proof.
  cbn zeta. rewrite exec_shell_command_direct by tauto.
  destruct (run_subprocess_no_prompt
              [VStr "bash"; VStr "-lc"; VStr command] None None w)
    as (Hin & evs & Htr & Hevs).
  repeat split; [done |]. by rewrite (new_events_app _ _ evs).
Qed.

(** In 'suggest' mode with [safe] true, in an interactive context, an
    answer that is y or yes once stripped and lower-cased lets the command
    run: after the prompt and the line read, the call is the call of
    [run_subprocess] on the bash command line. *)
Theorem exec_shell_command_approved command w line rest :
  environ w !! "PYCODEX_NONINTERACTIVE" <> Some "1" ->
  stdin w = line :: rest ->
  PyStr.lower (PyStr.strip line) = "y" \/ PyStr.lower (PyStr.strip line) = "yes" ->
  exec_shell_command command true (VStr "suggest") w
  = run_subprocess [VStr "bash"; VStr "-lc"; VStr command] None None
      (with_stdin rest
         (with_trace
            (EvPrompt ("Execute command: " +:+ command +:+ " [y/N]: ")) w)).
Proof.
  intros Hni Hin Hyes. rewrite exec_shell_command_gated by done.
  unfold mbind at 1, M_bind. rewrite is_noninteractive_false by done.
  unfold mbind, M_bind. rewrite approve_action_interactive by done.
  rewrite Hin. unfold says_yes.
  destruct Hyes as [-> | ->]; done.
Qed.

Lemma exec_shell_command_approved_witness :
  (exec_shell_command "ls" true (VStr "suggest") Sample.consenting).1
  = Ret (0, "done", EmptyString).
Proof.
  rewrite (exec_shell_command_approved "ls" Sample.consenting "y" []).
  - reflexivity.
  - vm_compute. discriminate.
  - reflexivity.
  - left. reflexivity.
Defined.

(** A child that has exited, with its pipes closed by every process that
    held them, before the timeout or without one, and whose output decodes
    as text: its return code and its output are returned as they are, it
    is spawned once and not killed, and the files it wrote are there. *)
Theorem run_subprocess_completes argv input timeout w p e out err :
  child w argv input = Runs p ->
  undisturbed p = Some e ->
  timed_out timeout p = None ->
  captured e = Captured out err ->
  let r := run_subprocess (VStr <$> argv) input timeout w in
  r.1 = Ret (returncode e, out, err)
  /\ new_events w r.2 = [EvSpawn argv input]
  /\ fs r.2 = apply_writes (writes e) (fs w).
Proof.
  intros Hchild Hund Hexp Hcap r. subst r.
  rewrite (run_subprocess_runs _ argv _ _ _ p) by (done || apply as_argv_strs).
  cbn zeta. rewrite Hexp, Hund. cbn [outcome_of fst snd].
  rewrite Hcap, or_empty, (undisturbed_some _ _ Hund).
  repeat split. by apply new_events_app.
Qed.

Lemma run_subprocess_completes_witness :
  (run_subprocess [VStr "true"] None (Some 5) Sample.interactive).1
  = Ret (0, "done", EmptyString).
Proof.
  apply (run_subprocess_completes ["true"] None (Some 5) Sample.interactive
           _ _ "done" EmptyString eq_refl eq_refl eq_refl eq_refl).
Defined.

End gate_more.

(** ** The adapters, continued *)

Section adapters_more.

Implicit Types (w : world).

(** What [run_subprocess] leaves behind, case by case, when called
    without a timeout. *)
Lemma run_subprocess_no_timeout cmd input w :
  let r := run_subprocess cmd input None w in
  (r.2 = w /\ exists e, r.1 = Raise e)
  \/ exists argv p,
       as_argv cmd = Ret argv
       /\ child w argv input = Runs p
       /\ r = outcome_of (returncode (normal p)) EmptyString input
                (undisturbed p) (with_trace (EvSpawn argv input) w).
Proof.
  cbn zeta.
  destruct (run_subprocess_cases cmd input None w)
    as [[_ [e ->]]|(argv & p & Hargv & Hchild & ->)]; [left; by eauto |].
  right. by exists argv, p.
Qed.

Lemma gemini_ensure_cases b w :
  GeminiBackend._ensure_available b w = (Ret tt, w)
  \/ exists e, GeminiBackend._ensure_available b w = (Raise e, w).
Proof.
  unfold GeminiBackend._ensure_available.
  destruct (GeminiBackend._available b); [by left |].
  unfold mbind, M_bind. rewrite which_spec.
  destruct (head _); msimpl; eauto.
Qed.

Lemma gemini_invoke_outcome b sub payload files w r :
  GeminiBackend._invoke b sub payload files w = r ->
  let cmd := build_cli_command (GeminiBackend.base_cmd b) sub
               (GeminiBackend.model b) (Some (GeminiBackend.approval_mode b))
               None in
  let input := Some (with_context payload (context_of w files)) in
  (r.2 = w /\ exists e, r.1 = Raise e)
  \/ exists p,
       child w cmd input = Runs p
       /\ match undisturbed p with
          | None => r = (Hang, with_trace (EvSpawn cmd input) w)
          | Some e =>
              r.2 = after_child input e (with_trace (EvSpawn cmd input) w)
              /\ r.1 = match captured e with
                       | Failed x => Raise x
                       | Captured out err =>
                           if negb (returncode e =? 0)
                           then Raise (Exn ExecutionError
                                         (GeminiBackend.failed_message
                                            (returncode e) out err))
                           else
                             '(code, text) ← parse_code_and_text out;
                             Ret (mkCodexResult code text
                                    ("cmd=" +:+ PyStr.join " " cmd
                                     +:+ PyStr.newline
                                     +:+ file_log_of w files))
                       end
          end.
Proof.
  intros Hr. cbn zeta.
  unfold GeminiBackend._invoke in Hr. unfold mbind at 1, M_bind in Hr.
  destruct (gemini_ensure_cases b w) as [He|[e He]]; rewrite He in Hr;
    [|subst r; left; eauto].
  unfold mbind at 1, M_bind in Hr. rewrite read_files_spec in Hr.
  cbn beta iota in Hr.
  fold (context_of w files) in Hr. fold (file_log_of w files) in Hr.
  fold (with_context payload (context_of w files)) in Hr.
  set (cmd := build_cli_command _ _ _ _ _) in *.
  set (input := Some (with_context payload (context_of w files))) in *.
  unfold mbind at 1, M_bind in Hr.
  destruct (run_subprocess_no_timeout (VStr <$> cmd) input w)
    as [[Hw [e Hx]]|(argv & p & Hargv & Hchild & Hrun)].
  { left.
    rewrite (surjective_pairing (run_subprocess (VStr <$> cmd) input None w))
      in Hr.
    rewrite Hx, Hw in Hr. subst r. eauto. }
  rewrite as_argv_strs in Hargv. injection Hargv as <-.
  right. exists p. split; [done |]. rewrite Hrun in Hr.
  destruct (undisturbed p) as [e|] eqn:Hund; cbn [outcome_of] in Hr; [|done].
  pose proof (undisturbed_some _ _ Hund) as ->.
  destruct (captured (normal p)) as [out err|x]; [|by subst r].
  rewrite or_empty in Hr. cbn beta iota in Hr. subst r.
  destruct (negb (returncode (normal p) =? 0)); [done |].
  unfold mbind, M_bind, lift.
  destruct (parse_code_and_text out) as [[code text]| |]; done.
Qed.

Lemma codex_ensure_cases b w :
  CodexBackend._ensure_available b w = (Ret tt, w)
  \/ exists e, CodexBackend._ensure_available b w = (Raise e, w).
Proof.
  pose proof (codex_ensure_world b w) as Hw.
  destruct (CodexBackend._ensure_available b w) as [[[]|e|] w1] eqn:E;
    cbn [snd] in Hw; subst w1; eauto.
  exfalso. unfold CodexBackend._ensure_available in E.
  destruct (CodexBackend._available b); [done |].
  unfold mbind, M_bind in E. rewrite which_eq in E.
  destruct (which _ w).1 as [[?|]| |] eqn:Ew; try done.
  clear E. unfold which, getenv_str in Ew. revert Ew. msimpl.
  generalize (PyStr.split ":" (default EmptyString (environ w !! "PATH"))).
  intros dirs. induction dirs as [|d dirs IH]; [done |].
  cbn [which_loop]. unfold os_path_join, mbind, M_bind.
  destruct (CodexBackend.base_cmd b); try done. msimpl.
  destruct (executable w _); [done | apply IH].
Qed.

Lemma dict_get_no_hang d k dflt w : (dict_get d k dflt w).1 <> Hang.
Proof. by destruct d. Qed.

Lemma sandbox_lookup_no_hang (env_sandbox : option string) w :
  (or_else (Py.of_opt env_sandbox)
     (cfg ← get_config;
      backend ← dict_get cfg "backend" VNone;
      codex ← dict_get (Py.or_ backend (VDict [])) "codex" (VDict []);
      dict_get codex "sandbox" VNone) w).1 <> Hang.
Proof.
  unfold or_else. destruct (Py.truthy _); [done |].
  unfold get_config. unfold mbind at 1, M_bind. cbn beta iota.
  unfold mbind at 1, M_bind.
  pose proof (dict_get_no_hang (VDict (config w)) "backend" VNone w) as H1.
  destruct (dict_get (VDict (config w)) "backend" VNone w)
    as [[backend|e|] w1]; [|done..].
  unfold mbind at 1, M_bind.
  pose proof (dict_get_no_hang (Py.or_ backend (VDict [])) "codex" (VDict [])
                w1) as H2.
  destruct (dict_get (Py.or_ backend (VDict [])) "codex" (VDict []) w1)
    as [[codex|e|] w2]; [|done..].
  apply dict_get_no_hang.
Qed.

(** A command line of strings is joined as it is started. *)
Lemma join_items_argv i cmd argv :
  as_argv cmd = Ret argv -> join_items i cmd = Ret argv.
Proof.
  revert i argv. induction cmd as [|v cmd IH]; intros i argv; [done |].
  destruct v; try done. cbn.
  destruct (as_argv cmd) as [l| |] eqn:E; [|done..].
  intros [= <-]. by rewrite (IH (S i) l).
Qed.

(** The last item of a command line is its last argument. *)
Lemma as_argv_last cmd a argv :
  as_argv (cmd ++ [VStr a]) = Ret argv -> last argv = Some a.
Proof.
  revert argv. induction cmd as [|v cmd IH]; intros argv.
  - cbn. by intros [= <-].
  - destruct v; try done. cbn.
    destruct (as_argv (cmd ++ [VStr a])) as [l| |] eqn:E; [|done..].
    intros [= <-]. specialize (IH l eq_refl).
    destruct l as [|x l]; [done |]. by rewrite last_cons, IH.
Qed.

(** A codex operation, case by case: it raises before anything is done;
    or the temporary file is made, under a name [tmp] that no file bore,
    and the operation raises before a child is started; or the child is
    started, with [tmp] as its last argument. *)
Lemma codex_run_exec_outcome b prompt files w r :
  CodexBackend._run_exec b prompt files w = r ->
  let input := Some (with_context prompt (context_of w files)) in
  (r.2 = w /\ exists e, r.1 = Raise e)
  \/ exists tmp n,
       let w1 := with_trace (EvCreate tmp)
                   (with_fs (<[tmp := Text EmptyString]> (fs w))
                      (with_tmp_count n w)) in
       fs w !! tmp = None
       /\ ((r.2 = w1 /\ exists e, r.1 = Raise e)
           \/ exists argv p,
                child w argv input = Runs p
                /\ last argv = Some tmp
                /\ let w2 := with_trace (EvSpawn argv input) w1 in
                   match undisturbed p with
                   | None => r = (Hang, w2)
                   | Some e =>
                       let w3 := after_child input e w2 in
                       match captured e with
                       | Failed x => r = (Raise x, w3)
                       | Captured out err =>
                           r.2 = (unlink_quietly tmp w3).2
                           /\ r.1
                              = match fs w3 !! tmp with
                                | Some (Unreadable x) => Raise x
                                | node =>
                                    let last_msg := match node with
                                                    | Some (Text t) => t
                                                    | _ => out
                                                    end in
                                    if negb (returncode e =? 0)
                                    then Raise
                                           (Exn ExecutionError
                                              (CodexBackend.failed_message
                                                 (returncode e) out err))
                                    else
                                      '(code, text) ←
                                        parse_code_and_text last_msg;
                                      Ret (mkCodexResult code text
                                             ("cmd=" +:+ PyStr.join " " argv
                                              +:+ PyStr.newline
                                              +:+ file_log_of w files))
                                end
                       end
                   end).
Proof.
  intros Hr. cbn zeta.
  unfold CodexBackend._run_exec in Hr. unfold mbind at 1, M_bind in Hr.
  destruct (codex_ensure_cases b w) as [He|[e He]]; rewrite He in Hr;
    [|subst r; left; eauto].
  unfold mbind at 1, M_bind in Hr. rewrite read_files_spec in Hr.
  cbn beta iota in Hr.
  fold (context_of w files) in Hr. fold (file_log_of w files) in Hr.
  fold (with_context prompt (context_of w files)) in Hr.
  set (input := Some (with_context prompt (context_of w files))) in *.
  unfold mbind at 1, M_bind in Hr.
  destruct (NamedTemporaryFile_cases "pycodex_last_msg_" ".txt" w)
    as [[e Hn]|(tmp & n & Hfree & Hn)]; rewrite Hn in Hr;
    [subst r; left; eauto |].
  right. exists tmp, n. cbn zeta. split; [done |].
  set (w1 := with_trace (EvCreate tmp) _) in *.
  unfold mbind at 1, M_bind in Hr. unfold getenv at 1 in Hr.
  cbn beta iota in Hr. unfold mbind at 1, M_bind in Hr.
  match type of Hr with
  | context [or_else ?a ?k w1] =>
      assert ((or_else a k w1).2 = w1) as Hsb by apply sandbox_lookup_world;
      assert ((or_else a k w1).1 <> Hang) as Hnh
        by apply sandbox_lookup_no_hang;
      destruct (or_else a k w1) as [[sandbox|e|] wx]
  end; cbn [fst snd] in Hsb, Hnh; subst wx; [| |done].
  2:{ subst r. left. eauto. }
  set (cmd := _ ++ [VStr "--output-last-message"; VStr tmp]) in Hr.
  unfold mbind at 1, M_bind in Hr.
  destruct (run_subprocess_no_timeout cmd input w1)
    as [[Hw [e Hx]]|(argv & p & Hargv & Hchild & Hrun)].
  { left.
    rewrite (surjective_pairing (run_subprocess cmd input None w1)) in Hr.
    rewrite Hx, Hw in Hr. subst r. eauto. }
  right. exists argv, p. split; [done |]. split.
  { subst cmd.
    rewrite (app_assoc _ [VStr "--output-last-message"] [VStr tmp]) in Hargv.
    by eapply as_argv_last. }
  rewrite Hrun in Hr.
  destruct (undisturbed p) as [e|] eqn:Hund; cbn [outcome_of] in Hr; [|done].
  pose proof (undisturbed_some _ _ Hund) as ->.
  destruct (captured (normal p)) as [out err|x]; [|by subst r].
  rewrite or_empty in Hr. cbn beta iota in Hr.
  unfold mbind at 1, M_bind in Hr. rewrite read_last_message in Hr.
  set (w3 := after_child input (normal p) _) in *.
  destruct (fs w3 !! tmp) as [[t|x]|];
    subst r; cbn beta iota; [|done|].
  all: destruct (negb (returncode (normal p) =? 0)); [by msimpl |];
    unfold join_cmd, mbind, M_bind, lift;
    rewrite (join_items_argv _ _ _ Hargv);
    match goal with
    | |- context [parse_code_and_text ?m] =>
        destruct (parse_code_and_text m) as [[code text]| |]
    end; done.
Qed.


(** What a gemini operation answers once communication with the child
    it has spawned has ended and the output is decoded. *)
Lemma gemini_invoke_returned b sub payload files w argv input p e out err :
  let r := GeminiBackend._invoke b sub payload files w in
  EvSpawn argv input ∈ new_events w r.2 ->
  child w argv input = Runs p ->
  undisturbed p = Some e ->
  captured e = Captured out err ->
  r.1 = if negb (returncode e =? 0)
        then Raise (Exn ExecutionError
                      (GeminiBackend.failed_message (returncode e) out err))
        else
          '(code, text) ← parse_code_and_text out;
          Ret (mkCodexResult code text
                 ("cmd=" +:+ PyStr.join " " argv +:+ PyStr.newline
                  +:+ file_log_of w files)).
Proof.
  cbn zeta. intros Hev Hchild Hund Hcap.
  destruct (gemini_invoke_outcome b sub payload files w _ eq_refl)
    as [[Hw _]|(p' & Hc & H)].
  { rewrite Hw, new_events_same in Hev. by apply elem_of_nil in Hev. }
  assert (argv = build_cli_command (GeminiBackend.base_cmd b) sub
                   (GeminiBackend.model b)
                   (Some (GeminiBackend.approval_mode b)) None
          /\ input = Some (with_context payload (context_of w files)))
    as [-> ->].
  { destruct (undisturbed p') as [e'|];
      [destruct H as [Hw _]; rewrite Hw in Hev | rewrite H in Hev];
      rewrite (new_events_app _ _ [EvSpawn _ _]) in Hev by done;
      apply list_elem_of_singleton in Hev; by injection Hev. }
  rewrite Hchild in Hc. injection Hc as <-.
  rewrite Hund in H. destruct H as [_ ->]. by rewrite Hcap.
Qed.

(** The gemini adapter: when the child has exited with status 0, its
    pipes closed by every process that held them, and its output decodes
    as text, the operation returns the code and the text parsed from its
    standard output, and a log made of the command line and of the log of
    the files. *)
Theorem gemini_invoke_success b sub payload files w argv input p e out err :
  let r := GeminiBackend._invoke b sub payload files w in
  EvSpawn argv input ∈ new_events w r.2 ->
  child w argv input = Runs p ->
  undisturbed p = Some e ->
  returncode e = 0 ->
  captured e = Captured out err ->
  exists code text,
    parse_code_and_text out = Ret (code, text)
    /\ r.1 = Ret (mkCodexResult code text
                    ("cmd=" +:+ PyStr.join " " argv +:+ PyStr.newline
                     +:+ file_log_of w files)).
Proof.
  cbn zeta. intros Hev Hchild Hund Hrc Hcap.
  rewrite (gemini_invoke_returned b sub payload files w argv input p e out err)
    by done.
  rewrite Hrc. cbn [negb Z.eqb].
  destruct (parse_code_and_text_total out) as (code & text & Hp).
  exists code, text. by rewrite Hp.
Qed.

Lemma gemini_invoke_success_witness :
  exists code text,
    parse_code_and_text Sample.answer = Ret (code, text)
    /\ (GeminiBackend._invoke Sample.gemini_installed "generate" "write f"
          None Sample.working).1
       = Ret (mkCodexResult code text
                ("cmd=" +:+ PyStr.join " "
                              ["gemini"; "generate"; "--model"; "gemini-1";
                               "--approval"; "suggest"]
                 +:+ PyStr.newline +:+ file_log_of Sample.working None)).
Proof.
  set (said := Sample.exiting 0 Sample.answer EmptyString
                 [("suggest", Some (Text Sample.answer))]).
  apply (gemini_invoke_success Sample.gemini_installed "generate" "write f"
           None Sample.working _ (Some "write f") said (normal said)
           Sample.answer EmptyString).
  - vm_compute. apply list_elem_of_here.
  - reflexivity.
  - reflexivity.
  - reflexivity.
  - reflexivity.
Defined.

(** The gemini adapter: a child that exits with a status other than 0
    makes the operation raise [ExecutionError], once its pipes are closed
    and its output is decoded. *)
Lemma gemini_invoke_nonzero b sub payload files w argv input p e out err :
  let r := GeminiBackend._invoke b sub payload files w in
  EvSpawn argv input ∈ new_events w r.2 ->
  child w argv input = Runs p ->
  undisturbed p = Some e ->
  captured e = Captured out err ->
  returncode e <> 0 ->
  r.1 = Raise (Exn ExecutionError
                 (GeminiBackend.failed_message (returncode e) out err)).
Proof.
  cbn zeta. intros Hev Hchild Hund Hcap Hrc.
  rewrite (gemini_invoke_returned b sub payload files w argv input p e out err)
    by done.
  apply Z.eqb_neq in Hrc. by rewrite Hrc.
Qed.

(** The events of a codex operation once the child has been started. *)
Lemma codex_trace_after tmp n argv input e w :
  let w1 := with_trace (EvCreate tmp)
              (with_fs (<[tmp := Text EmptyString]> (fs w))
                 (with_tmp_count n w)) in
  let w3 := after_child input e (with_trace (EvSpawn argv input) w1) in
  new_events w w3 = [EvCreate tmp; EvSpawn argv input]
  /\ new_events w (unlink_quietly tmp w3).2
     = [EvCreate tmp; EvSpawn argv input]
       ++ (if unlinks w3 tmp then [EvUnlink tmp] else []).
Proof.
  cbn zeta. split.
  - apply new_events_app. cbn. by rewrite <- !app_assoc.
  - rewrite unlink_quietly_spec. cbn [snd].
    destruct (unlinks _ tmp); apply new_events_app; cbn;
      by rewrite <- !app_assoc.
Qed.

(** The child recorded in the events of a codex operation is the one the
    operation has started. *)
Lemma codex_run_exec_spawned b prompt files w argv input :
  let r := CodexBackend._run_exec b prompt files w in
  EvSpawn argv input ∈ new_events w r.2 ->
  exists tmp n p,
    let w1 := with_trace (EvCreate tmp)
                (with_fs (<[tmp := Text EmptyString]> (fs w))
                   (with_tmp_count n w)) in
    let w3 e := after_child input e (with_trace (EvSpawn argv input) w1) in
    last argv = Some tmp
    /\ child w argv input = Runs p
    /\ forall e out err,
         undisturbed p = Some e ->
         captured e = Captured out err ->
         r.1 = match fs (w3 e) !! tmp with
               | Some (Unreadable x) => Raise x
               | node =>
                   let last_msg := match node with
                                   | Some (Text t) => t
                                   | _ => out
                                   end in
                   if negb (returncode e =? 0)
                   then Raise (Exn ExecutionError
                                 (CodexBackend.failed_message
                                    (returncode e) out err))
                   else
                     '(code, text) ← parse_code_and_text last_msg;
                     Ret (mkCodexResult code text
                            ("cmd=" +:+ PyStr.join " " argv +:+ PyStr.newline
                             +:+ file_log_of w files))
               end.
Proof.
  cbn zeta. intros Hev.
  destruct (codex_run_exec_outcome b prompt files w _ eq_refl)
    as [[Hw _]|(tmp & n & _ & [[Hw _]|(argv' & p & Hc & Hlast & H)])].
  { rewrite Hw, new_events_same in Hev. by apply elem_of_nil in Hev. }
  { rewrite Hw, (new_events_app _ _ [EvCreate _]) in Hev by done.
    by apply list_elem_of_singleton in Hev. }
  cbn zeta in H.
  assert (argv' = argv
          /\ input = Some (with_context prompt (context_of w files)))
    as [-> ->].
  { assert (EvSpawn argv input
              ∈ [EvCreate tmp;
                 EvSpawn argv'
                   (Some (with_context prompt (context_of w files)));
                 EvUnlink tmp]) as Hin.
    { destruct (undisturbed p) as [e|].
      - destruct (codex_trace_after tmp n argv'
                    (Some (with_context prompt (context_of w files))) e w)
          as [H3 H4].
        cbn zeta in H3, H4.
        destruct (captured e) as [out err|x].
        + destruct H as [Hw _]. rewrite Hw, H4 in Hev.
          destruct (unlinks _ tmp); [done |]. cbn [app] in Hev.
          revert Hev. rewrite !elem_of_cons, !elem_of_nil. tauto.
        + rewrite H in Hev. cbn [snd] in Hev. rewrite H3 in Hev.
          revert Hev. rewrite !elem_of_cons, !elem_of_nil. tauto.
      - rewrite H in Hev.
        rewrite (new_events_app _ _ [EvCreate _; EvSpawn _ _]) in Hev
          by (cbn; by rewrite <- !app_assoc).
        revert Hev. rewrite !elem_of_cons, !elem_of_nil. tauto. }
    rewrite !elem_of_cons, elem_of_nil in Hin.
    by destruct Hin as [?|[[= -> ->]|[?|[]]]]. }
  exists tmp, n, p. split; [done |]. split; [done |].
  intros e out err Hund Hcap. rewrite Hund, Hcap in H. by destruct H as [_ ->].
Qed.

(** What the temporary file holds when the child has gone. *)
Lemma codex_last_message_node tmp n argv input e w :
  fs (after_child input e
        (with_trace (EvSpawn argv input)
           (with_trace (EvCreate tmp)
              (with_fs (<[tmp := Text EmptyString]> (fs w))
                 (with_tmp_count n w))))) !! tmp
  = apply_writes (writes e) (<[tmp := Text EmptyString]> (fs w)) !! tmp.
Proof. done. Qed.


(** The codex adapter, once communication with the child has ended and
    its output is decoded: the file named by the last argument of the
    command line is read first, and what reading it raises is raised;
    else a status other than 0 raises [ExecutionError]; else the
    operation returns what is parsed from the file, or from the standard
    output when the file is gone. *)
Lemma codex_run_exec_returned b prompt files w argv input p e out err :
  let r := CodexBackend._run_exec b prompt files w in
  let tmp := default EmptyString (last argv) in
  let node := apply_writes (writes e) (<[tmp := Text EmptyString]> (fs w))
                !! tmp in
  EvSpawn argv input ∈ new_events w r.2 ->
  child w argv input = Runs p ->
  undisturbed p = Some e ->
  captured e = Captured out err ->
  r.1 = match node with
        | Some (Unreadable x) => Raise x
        | _ =>
            let last_msg := match node with
                            | Some (Text t) => t
                            | _ => out
                            end in
            if negb (returncode e =? 0)
            then Raise (Exn ExecutionError
                          (CodexBackend.failed_message (returncode e) out err))
            else
              '(code, text) ← parse_code_and_text last_msg;
              Ret (mkCodexResult code text
                     ("cmd=" +:+ PyStr.join " " argv +:+ PyStr.newline
                      +:+ file_log_of w files))
        end.
Proof.
  cbn zeta. intros Hev Hchild Hund Hcap.
  destruct (codex_run_exec_spawned b prompt files w argv input Hev)
    as (tmp & n & p' & Hlast & Hc & H).
  rewrite Hchild in Hc. injection Hc as <-.
  rewrite Hlast. cbn [default from_option id].
  rewrite (H e out err Hund Hcap), codex_last_message_node.
  by destruct (apply_writes _ _ !! tmp) as [[t|x]|].
Qed.

(** The codex adapter: a child that exits with a status other than 0
    makes the operation raise [ExecutionError], provided its output
    decodes and the file for the last message can be read, or is gone,
    once communication has ended. *)
Lemma codex_run_exec_nonzero b prompt files w argv input p e out err :
  let r := CodexBackend._run_exec b prompt files w in
  let tmp := default EmptyString (last argv) in
  let node := apply_writes (writes e) (<[tmp := Text EmptyString]> (fs w))
                !! tmp in
  EvSpawn argv input ∈ new_events w r.2 ->
  child w argv input = Runs p ->
  undisturbed p = Some e ->
  captured e = Captured out err ->
  returncode e <> 0 ->
  (forall x, node <> Some (Unreadable x)) ->
  r.1 = Raise (Exn ExecutionError
                 (CodexBackend.failed_message (returncode e) out err)).
Proof.
  cbn zeta. intros Hev Hchild Hund Hcap Hrc Hnode.
  rewrite (codex_run_exec_returned b prompt files w argv input p e out err)
    by done.
  cbn zeta. apply Z.eqb_neq in Hrc. rewrite Hrc.
  destruct (apply_writes _ _ !! _) as [[t|x]|]; [done | | done].
  by destruct (Hnode x).
Qed.

(** The codex adapter: when the child has exited with status 0, its
    pipes closed by every process that held them, its output decodes as
    text, and the file for the last message can be read or is gone, the
    operation returns the code and the text parsed from that file, or from
    the standard output when the file is gone, and a log made of the
    command line and of the log of the files. *)
Theorem codex_run_exec_success b prompt files w argv input p e out err :
  let r := CodexBackend._run_exec b prompt files w in
  let tmp := default EmptyString (last argv) in
  let node := apply_writes (writes e) (<[tmp := Text EmptyString]> (fs w))
                !! tmp in
  EvSpawn argv input ∈ new_events w r.2 ->
  child w argv input = Runs p ->
  undisturbed p = Some e ->
  returncode e = 0 ->
  captured e = Captured out err ->
  (forall x, node <> Some (Unreadable x)) ->
  exists code text,
    parse_code_and_text (match node with Some (Text t) => t | _ => out end)
    = Ret (code, text)
    /\ r.1 = Ret (mkCodexResult code text
                    ("cmd=" +:+ PyStr.join " " argv +:+ PyStr.newline
                     +:+ file_log_of w files)).
Proof.
  cbn zeta. intros Hev Hchild Hund Hrc Hcap Hnode.
  rewrite (codex_run_exec_returned b prompt files w argv input p e out err)
    by done.
  cbn zeta. rewrite Hrc. cbn [negb Z.eqb].
  match goal with
  | |- context [parse_code_and_text ?m] =>
      destruct (parse_code_and_text_total m) as (code & text & Hp)
  end.
  exists code, text. split; [done |].
  destruct (apply_writes _ _ !! _) as [[t|x]|] eqn:Hn.
  - by rewrite Hp.
  - by destruct (Hnode x).
  - by rewrite Hp.
Qed.

Lemma codex_run_exec_success_witness :
  (CodexBackend._run_exec Sample.codex_installed "write f" None
     Sample.working).1
  = Ret (mkCodexResult "def f(): pass" EmptyString
           ("cmd=codex exec --model gpt-5-codex --color never --skip-git-repo-check --output-last-message /tmp/pycodex_last_msg_0.txt"
            +:+ PyStr.newline)).
Proof.
  set (said := Sample.exiting 0 Sample.answer EmptyString
                 [("/tmp/pycodex_last_msg_0.txt", Some (Text Sample.answer))]).
  destruct (codex_run_exec_success Sample.codex_installed "write f" None
              Sample.working
              ["codex"; "exec"; "--model"; "gpt-5-codex"; "--color"; "never";
               "--skip-git-repo-check"; "--output-last-message";
               "/tmp/pycodex_last_msg_0.txt"]
              (Some "write f") said (normal said) Sample.answer EmptyString)
    as (code & text & Hp & Hr).
  - vm_compute. apply list_elem_of_further, list_elem_of_here.
  - reflexivity.
  - reflexivity.
  - reflexivity.
  - reflexivity.
  - intros x. vm_compute. discriminate.
  - rewrite Hr. vm_compute in Hp. by injection Hp as <- <-.
Defined.

Lemma lower_char_idemp c : PyStr.lower_char (PyStr.lower_char c) = PyStr.lower_char c.
Proof. by destruct c as [[] [] [] [] [] [] [] []]. Qed.

Lemma lower_idemp s : PyStr.lower (PyStr.lower s) = PyStr.lower s.
Proof.
  induction s as [|c s IH]; [done |].
  cbn [PyStr.lower]. by rewrite lower_char_idemp, IH.
Qed.

(** The facade picks the backend by its lower-cased name, so the case of
    the name does not matter; a name that is neither codex nor gemini
    raises [ValueError] before anything is read or run. *)
Theorem facade_backend_by_name backend model mode w :
  PyCodex.__init__ backend model mode
  = PyCodex.__init__ (PyStr.lower backend) model mode
  /\ (PyStr.lower backend <> "codex" ->
      PyStr.lower backend <> "gemini" ->
      PyCodex.__init__ backend model mode w
      = (Raise (Exn ValueError "Unsupported backend"), w)).
Proof.
  split.
  - unfold PyCodex.__init__. by rewrite lower_idemp.
  - intros H1 H2. unfold PyCodex.__init__.
    by rewrite !bool_decide_eq_false_2.
Qed.

Lemma facade_backend_by_name_witness :
  PyCodex.__init__ "claude" None "suggest" Sample.interactive
  = (Raise (Exn ValueError "Unsupported backend"), Sample.interactive).
Proof.
  apply (facade_backend_by_name "claude" None "suggest" Sample.interactive);
    discriminate.
Defined.



Lemma eq_str_spec v s : Py.eq_str v s = true <-> v = VStr s.
Proof.
  destruct v; cbn; try (split; [done | by intros [=]]).
  rewrite bool_decide_eq_true. split; [by intros -> | by intros [= ->]].
Qed.

Lemma run_bash_events command w :
  let w' := (run_subprocess [VStr "bash"; VStr "-lc"; VStr command]
               None None w).2 in
  new_events w w' = []
  \/ new_events w w' = [EvSpawn ["bash"; "-lc"; command] None].
Proof.
  cbn zeta.
  destruct (run_subprocess_no_timeout
              [VStr "bash"; VStr "-lc"; VStr command] None w)
    as [[-> _]|(argv & p & [= <-] & _ & ->)].
  - left. apply new_events_same.
  - right. apply new_events_app. by destruct (undisturbed p).
Qed.

Lemma exec_shell_command_events_of command safe mode w r :
  exec_shell_command command safe mode w = r ->
  let asked := EvPrompt ("Execute command: " +:+ command +:+ " [y/N]: ") in
  let ran := EvSpawn ["bash"; "-lc"; command] None in
  new_events w r.2 = [] \/ new_events w r.2 = [asked]
  \/ new_events w r.2 = [ran] \/ new_events w r.2 = [asked; ran].
Proof.
  intros Hr. cbn zeta.
  assert ((safe = false \/ mode = VStr "full-auto" \/ mode = VStr "auto-edit")
          \/ (safe = true /\ mode <> VStr "full-auto"
              /\ mode <> VStr "auto-edit")) as [Hd|(-> & Hfa & Hae)].
  { destruct safe; [|by auto].
    destruct (Py.eq_str mode "full-auto") eqn:E1;
      [apply eq_str_spec in E1; by auto |].
    destruct (Py.eq_str mode "auto-edit") eqn:E2;
      [apply eq_str_spec in E2; by auto |].
    right. repeat split; intros H%eq_str_spec; congruence. }
  { rewrite exec_shell_command_direct in Hr by done. subst r.
    destruct (run_bash_events command w) as [->| ->]; auto. }
  rewrite exec_shell_command_gated in Hr by done.
  unfold mbind at 1, M_bind in Hr.
  destruct (decide (environ w !! "PYCODEX_NONINTERACTIVE" = Some "1"))
    as [Hni|Hni].
  { rewrite is_noninteractive_true in Hr by done. subst r.
    left. apply new_events_same. }
  rewrite is_noninteractive_false in Hr by done.
  unfold mbind, M_bind in Hr.
  rewrite approve_action_interactive in Hr by done.
  set (p := EvPrompt _) in *.
  destruct (stdin w) as [|line rest] eqn:Hin.
  { subst r. right. left. by apply new_events_app. }
  destruct (says_yes line).
  2:{ subst r. right. left. by apply new_events_app. }
  set (w1 := with_stdin rest (with_trace p w)) in *. subst r.
  destruct (run_subprocess_no_timeout
              [VStr "bash"; VStr "-lc"; VStr command] None w1)
    as [[Hw _]|(argv & q & [= <-] & _ & ->)].
  - right. left. rewrite Hw. by apply new_events_app.
  - right. right. right. apply new_events_app.
    destruct (undisturbed q); cbn; by rewrite <- app_assoc.
Qed.

(** The gate runs the command once at most, always as [bash -lc], asks
    once at most and before running, and never kills the child. *)
Theorem exec_shell_command_events command safe mode w :
  let w' := (exec_shell_command command safe mode w).2 in
  let asked := EvPrompt ("Execute command: " +:+ command +:+ " [y/N]: ") in
  let ran := EvSpawn ["bash"; "-lc"; command] None in
  new_events w w' = [] \/ new_events w w' = [asked]
  \/ new_events w w' = [ran] \/ new_events w w' = [asked; ran].
Proof. by apply (exec_shell_command_events_of command safe mode). Qed.

End adapters_more.

(** ** The interactive session *)

Section session.

Implicit Types (w : world) (self : PyCodex.t).

Lemma unread_length read lines :
  (length (unread read lines) <= length lines)%nat.
Proof.
  revert lines. induction read as [|[] read IH]; intros [|line lines]; cbn;
    try lia.
  - specialize (IH lines). lia.
  - specialize (IH lines). lia.
Qed.

Lemma exec_shell_command_stdin command safe mode w :
  (length (stdin (exec_shell_command command safe mode w).2)
   <= length (stdin w))%nat.
Proof.
  assert ((safe = false \/ mode = VStr "full-auto" \/ mode = VStr "auto-edit")
          \/ (safe = true /\ mode <> VStr "full-auto"
              /\ mode <> VStr "auto-edit")) as [Hd|(-> & Hfa & Hae)].
  { destruct safe; [|by auto].
    destruct (Py.eq_str mode "full-auto") eqn:E1;
      [apply eq_str_spec in E1; by auto |].
    destruct (Py.eq_str mode "auto-edit") eqn:E2;
      [apply eq_str_spec in E2; by auto |].
    right. repeat split; intros H%eq_str_spec; congruence. }
  { rewrite exec_shell_command_direct by done.
    destruct (run_subprocess_no_prompt
                [VStr "bash"; VStr "-lc"; VStr command] None None w)
      as [-> _].
    apply unread_length. }
  rewrite exec_shell_command_gated by done.
  unfold mbind at 1, M_bind.
  destruct (decide (environ w !! "PYCODEX_NONINTERACTIVE" = Some "1"))
    as [Hni|Hni].
  { by rewrite is_noninteractive_true. }
  rewrite is_noninteractive_false by done. unfold mbind, M_bind.
  rewrite approve_action_interactive by done.
  destruct (stdin w) as [|line rest] eqn:Hin;
    [msimpl; cbn [snd stdin with_trace]; by rewrite Hin |].
  destruct (says_yes line); [|cbn; lia].
  destruct (run_subprocess_no_prompt
              [VStr "bash"; VStr "-lc"; VStr command] None None
              (with_stdin rest
                 (with_trace
                    (EvPrompt (("Execute command: " +:+ command) +:+ " [y/N]: "))
                    w))) as [-> _].
  etrans; [apply unread_length |]. cbn. lia.
Qed.

Lemma bind_world_stdin {A B} (m : M A) (f : A -> B) w :
  stdin ((x ← m; mret (f x)) w).2 = stdin (m w).2.
Proof. unfold mbind, M_bind, mret, M_ret. by destruct (m w) as [[?| |] ?]. Qed.

Lemma pycodex_exec_command_stdin self command safe w :
  (length (stdin (PyCodex.exec_command self command safe w).2)
   <= length (stdin w))%nat.
Proof.
  destruct self as [b|b]; cbn [PyCodex.exec_command];
    unfold CodexBackend.exec_command, GeminiBackend.exec_command.
  - etrans; [|apply (exec_shell_command_stdin command safe
                       (CodexBackend.approval_mode b) w)].
    apply Nat.eq_le_incl. f_equal.
    unfold mbind, M_bind, mret, M_ret.
    by destruct (exec_shell_command _ _ _ w) as [[[[? ?] ?]| |] ?].
  - etrans; [|apply (exec_shell_command_stdin command safe
                       (VStr (GeminiBackend.approval_mode b)) w)].
    apply Nat.eq_le_incl. f_equal.
    unfold mbind, M_bind, mret, M_ret.
    by destruct (exec_shell_command _ _ _ w) as [[[[? ?] ?]| |] ?].
Qed.

(** The adapters give their child a pipe: it reads nothing from the
    standard input of the program. *)
Lemma pycodex_generate_stdin self prompt files w :
  stdin (PyCodex.generate self prompt files w).2 = stdin w.
Proof.
  destruct self as [b|b]; cbn [PyCodex.generate];
    unfold CodexBackend.generate, GeminiBackend.generate.
  - destruct (codex_run_exec_outcome b prompt files w _ eq_refl)
      as [[-> _]|(tmp & n & _ & [[-> _]|(argv & p & _ & _ & H)])];
      [done.. |].
    cbn zeta in H. destruct (undisturbed p) as [e|]; [|by rewrite H].
    destruct (captured e) as [out err|x]; [|by rewrite H].
    destruct H as [-> _]. rewrite unlink_quietly_spec. cbn [snd].
    by destruct (unlinks _ tmp).
  - destruct (gemini_invoke_outcome b "generate" prompt files w _ eq_refl)
      as [[-> _]|(p & _ & H)]; [done |].
    destruct (undisturbed p); [destruct H as [-> _] | rewrite H]; done.
Qed.

(** One turn of the loop, by what the line read is. *)
Lemma interactive_loop_eof fuel self printed w :
  stdin w = [] ->
  interactive_loop (S fuel) self printed w
  = (Ret (Some (printed ++ [EmptyString])),
     with_trace (EvPrompt "pycodex> ") w).
Proof.
  intros H. cbn [interactive_loop]. unfold mbind at 1, M_bind.
  unfold try_except, input. unfold mbind at 1, M_bind. by rewrite H.
Qed.

Lemma interactive_loop_line fuel self printed w l rest :
  stdin w = l :: rest ->
  interactive_loop (S fuel) self printed w
  = let line := PyStr.strip l in
    let w1 := with_stdin rest (with_trace (EvPrompt "pycodex> ") w) in
    if negb (PyStr.truthy line) then interactive_loop fuel self printed w1
    else if bool_decide (line = "exit") || bool_decide (line = "quit")
    then (Ret (Some printed), w1)
    else if PyStr.startswith line "!" then
      (res ← PyCodex.exec_command self (PyStr.strip (after_first line)) true;
       interactive_loop fuel self
         (printed ++ [PyStr.or_ (output res) (error res)])) w1
    else
      (res ← PyCodex.generate self line None;
       interactive_loop fuel self
         (printed ++ [PyStr.or_ (code res) (text res)])) w1.
Proof.
  intros H. cbn [interactive_loop]. unfold mbind at 1, M_bind.
  unfold try_except, input. unfold mbind at 1, M_bind. rewrite H.
  msimpl. cbn zeta.
  destruct (negb (PyStr.truthy _)); [done |].
  destruct (bool_decide _ || bool_decide _); [done |].
  by destruct (PyStr.startswith _ _).
Qed.

Lemma interactive_loop_fuel fuel self printed w :
  (length (stdin w) < fuel)%nat ->
  (interactive_loop fuel self printed w).1 <> Ret None.
Proof.
  revert printed w. induction fuel as [|fuel IH]; intros printed w Hlen;
    [lia |].
  destruct (stdin w) as [|l rest] eqn:Hin.
  { by rewrite interactive_loop_eof. }
  rewrite (interactive_loop_line _ _ _ _ l rest) by done. cbn zeta.
  set (w1 := with_stdin rest _).
  assert (length (stdin w1) < fuel)%nat as Hw1 by (cbn in *; lia).
  destruct (negb (PyStr.truthy _)); [by apply IH |].
  destruct (_ || _); [done |].
  destruct (PyStr.startswith _ _).
  - unfold mbind, M_bind.
    pose proof (pycodex_exec_command_stdin self
                  (PyStr.strip (after_first (PyStr.strip l))) true w1) as Hle.
    destruct (PyCodex.exec_command _ _ _ w1) as [[res|e|] w2] eqn:E;
      [|done..].
    apply IH. cbn [snd] in Hle. lia.
  - unfold mbind, M_bind.
    pose proof (pycodex_generate_stdin self (PyStr.strip l) None w1) as Heq.
    destruct (PyCodex.generate _ _ _ w1) as [[res|e|] w2] eqn:E;
      [|done..].
    apply IH. cbn [snd] in Heq. by rewrite Heq.
Qed.

(** The session ends within the fuel it is given: every turn of the loop
    reads a line, and no operation puts one back, so the loop never runs
    out of turns.  It returns what was printed, raises, or waits for a
    child. *)
Theorem interactive_fuel_suffices self w :
  (interactive self w).1 <> Ret None.
Proof. apply interactive_loop_fuel. lia. Qed.

(** A line that is exit or quit once stripped ends the session at once:
    only the banner has been printed, nothing has been run, and the lines
    after it are not read. *)
Theorem interactive_exit self w l rest :
  stdin w = l :: rest ->
  PyStr.strip l = "exit" \/ PyStr.strip l = "quit" ->
  interactive self w
  = (Ret (Some [banner]),
     with_stdin rest (with_trace (EvPrompt "pycodex> ") w)).
Proof.
  intros Hin Hl. unfold interactive.
  rewrite (interactive_loop_line _ _ _ _ l rest) by done. cbn zeta.
  by destruct Hl as [-> | ->].
Qed.

Lemma interactive_exit_witness :
  (interactive (PyCodex.Codex Sample.codex_missing) Sample.leaving).1
  = Ret (Some [banner])
  /\ stdin (interactive (PyCodex.Codex Sample.codex_missing)
              Sample.leaving).2 = ["never read"].
Proof.
  rewrite (interactive_exit (PyCodex.Codex Sample.codex_missing)
             Sample.leaving " quit " ["never read"]).
  - split; reflexivity.
  - reflexivity.
  - right. reflexivity.
Defined.

Lemma interactive_loop_blank fuel self printed w lines :
  Forall (fun l => PyStr.strip l = EmptyString) lines ->
  stdin w = lines ->
  (length lines < fuel)%nat ->
  let r := interactive_loop fuel self printed w in
  r.1 = Ret (Some (printed ++ [EmptyString]))
  /\ stdin r.2 = []
  /\ trace r.2
     = trace w ++ replicate (S (length lines)) (EvPrompt "pycodex> ").
Proof.
  revert fuel w. induction lines as [|l lines IH]; intros fuel w Hall Hin Hlen.
  - destruct fuel as [|fuel]; [cbn in Hlen; lia |]. cbn zeta.
    by rewrite interactive_loop_eof.
  - destruct fuel as [|fuel]; [cbn in Hlen; lia |]. cbn zeta.
    apply Forall_cons in Hall as [Hl Hall].
    rewrite (interactive_loop_line _ _ _ _ l lines) by done. cbn zeta.
    rewrite Hl. cbn [PyStr.truthy negb].
    set (w1 := with_stdin lines _).
    destruct (IH fuel w1 Hall eq_refl) as (Hr & Hs & Htr);
      [cbn in Hlen; lia |].
    repeat split; [done.. |].
    rewrite Htr. cbn. by rewrite <- app_assoc.
Qed.

(** Blank lines are skipped.  When the input holds nothing but lines of
    white space, the session prompts once for each line and once more,
    prints the banner and an empty line at the end of the input, and runs
    nothing. *)
Theorem interactive_blank_lines self w :
  Forall (fun l => PyStr.strip l = EmptyString) (stdin w) ->
  let r := interactive self w in
  r.1 = Ret (Some [banner; EmptyString])
  /\ stdin r.2 = []
  /\ new_events w r.2
     = replicate (S (length (stdin w))) (EvPrompt "pycodex> ").
Proof.
  intros Hall. cbn zeta. unfold interactive.
  destruct (interactive_loop_blank (S (length (stdin w))) self [banner] w
              (stdin w) Hall eq_refl) as (Hr & Hs & Htr); [lia |].
  repeat split; [done.. |]. by apply new_events_app.
Qed.

Lemma interactive_blank_lines_witness :
  (interactive (PyCodex.Codex Sample.codex_missing) Sample.idle).1
  = Ret (Some [banner; EmptyString]).
Proof.
  apply (interactive_blank_lines (PyCodex.Codex Sample.codex_missing)
           Sample.idle).
  repeat constructor.
Defined.

Lemma bang_not_word line :
  PyStr.startswith line "!" = true ->
  PyStr.truthy line = true
  /\ bool_decide (line = "exit") || bool_decide (line = "quit") = false.
Proof.
  intros H. split; [by destruct line |].
  apply orb_false_iff. split; apply bool_decide_eq_false; by intros ->.
Qed.

(** A shell escape in an unattended session ends it.  When the line read
    begins with '!', the non-interactive mode is on and the adapter's
    approval mode is neither 'full-auto' nor 'auto-edit', the
    [ExecutionError] of the gate leaves the loop: nothing is run and the
    lines after it are not read. *)
Theorem interactive_shell_escape_unattended self w l rest :
  stdin w = l :: rest ->
  PyStr.startswith (PyStr.strip l) "!" = true ->
  environ w !! "PYCODEX_NONINTERACTIVE" = Some "1" ->
  backend_approval_mode self <> VStr "full-auto" ->
  backend_approval_mode self <> VStr "auto-edit" ->
  interactive self w
  = (Raise (Exn ExecutionError approval_error),
     with_stdin rest (with_trace (EvPrompt "pycodex> ") w)).
Proof.
  intros Hin Hbang Hni Hfa Hae. unfold interactive.
  rewrite (interactive_loop_line _ _ _ _ l rest) by done. cbn zeta.
  destruct (bang_not_word _ Hbang) as [-> ->]. rewrite Hbang. cbn [negb].
  set (w1 := with_stdin rest _).
  assert (exec_shell_command (PyStr.strip (after_first (PyStr.strip l))) true
            (backend_approval_mode self) w1
          = (Raise (Exn ExecutionError approval_error), w1)) as Hgate.
  { rewrite exec_shell_command_gated by done.
    unfold mbind, M_bind. by rewrite is_noninteractive_true. }
  unfold mbind at 1, M_bind.
  destruct self as [b|b]; cbn [PyCodex.exec_command backend_approval_mode] in *;
    unfold CodexBackend.exec_command, GeminiBackend.exec_command;
    unfold mbind at 1, M_bind; by rewrite Hgate.
Qed.

Lemma interactive_shell_escape_unattended_witness :
  (interactive (PyCodex.Codex Sample.codex_missing)
     Sample.unattended_session).1
  = Raise (Exn ExecutionError approval_error).
Proof.
  rewrite (interactive_shell_escape_unattended
             (PyCodex.Codex Sample.codex_missing) Sample.unattended_session
             "!ls" ["never read"]); (reflexivity || discriminate).
Defined.

Lemma which_loop_same dirs cmd w w' :
  executable w' = executable w ->
  (which_loop dirs cmd w').1 = (which_loop dirs cmd w).1.
Proof.
  intros He. induction dirs as [|d dirs IH]; [done |].
  cbn [which_loop]. unfold os_path_join, mbind, M_bind.
  destruct cmd; try done. msimpl. rewrite He.
  destruct (executable w _); [done | apply IH].
Qed.

Lemma which_same cmd w w' :
  environ w' = environ w -> executable w' = executable w ->
  (which cmd w').1 = (which cmd w).1.
Proof.
  intros Henv He. unfold which, getenv_str. msimpl. rewrite Henv.
  by apply which_loop_same.
Qed.

(** A request made to a backend whose binary is missing ends the
    session: the [BackendNotFoundError] of [generate] leaves the loop, and
    the lines after the request are not read. *)
Theorem interactive_backend_missing self w0 w l rest :
  constructed_in w0 self ->
  unresolvable w0 self ->
  unresolvable w self ->
  stdin w = l :: rest ->
  PyStr.strip l <> EmptyString ->
  PyStr.strip l <> "exit" ->
  PyStr.strip l <> "quit" ->
  PyStr.startswith (PyStr.strip l) "!" = false ->
  interactive self w
  = (Raise (Exn BackendNotFoundError (backend_not_found_message self)),
     with_stdin rest (with_trace (EvPrompt "pycodex> ") w)).
Proof.
  intros Hc H0 Hw Hin Hne Hexit Hquit Hbang. unfold interactive.
  rewrite (interactive_loop_line _ _ _ _ l rest) by done. cbn zeta.
  destruct (PyStr.strip l) as [|c s] eqn:Hl; [done |].
  cbn [PyStr.truthy negb]. rewrite !bool_decide_eq_false_2 by done.
  rewrite Hbang. cbn [orb].
  set (w1 := with_stdin rest _).
  assert (unresolvable w1 self) as Hw1.
  { unfold unresolvable in *. by rewrite (which_same _ w w1). }
  unfold mbind at 1, M_bind.
  destruct self as [b|b]; cbn [PyCodex.generate backend_not_found_message].
  - unfold CodexBackend.generate.
    rewrite codex_run_exec_unavailable;
      [done | by eapply codex_constructed_unavailable | done].
  - unfold GeminiBackend.generate.
    rewrite gemini_invoke_unavailable;
      [done | by eapply gemini_constructed_unavailable | done].
Qed.

Lemma interactive_backend_missing_witness :
  (interactive (PyCodex.Codex Sample.codex_missing) Sample.consenting).1
  = Raise (Exn BackendNotFoundError
             "Codex CLI not found: 'codex'. Set PYCODEX_CODEX_CLI or install the CLI.").
Proof.
  rewrite (interactive_backend_missing (PyCodex.Codex Sample.codex_missing)
             Sample.consenting Sample.consenting "y" []);
    try (reflexivity || discriminate).
  exists (Some "gpt-5-codex"), "suggest", Sample.consenting. reflexivity.
Defined.

End session.
